(** * Quick glTF export add-on: embedding and properties

    A shallow embedding of [blender_quick_export.py].  The add-on has
    three entry points: the operator's [execute], and the module's
    [register] / [unregister].  Everything else is the Python runtime
    ([str] methods, [os.path] on a POSIX host) and the host application
    ([bpy]); both are modelled below as far as the add-on uses them.

    Python [str] values are modelled as [string]; only the characters
    ['/'] and ['.'] are ever inspected, so the encoding of the other
    characters is irrelevant. *)

From Stdlib Require Import ZArith Lia Ascii String List Bool.
From stdpp Require Import base decidable countable gmap strings list.

Local Open Scope Z_scope.

(** ** Python [str] primitives

    The [str] methods the path functions are written with, for the
    one-character separators they are called with. *)

Module PyStr.

(** [len(s)] *)
Definition len (s : string) : Z := Z.of_nat (String.length s).

Fixpoint drop (n : nat) (s : string) : string :=
  match n, s with
  | O, _ => s
  | S _, EmptyString => EmptyString
  | S n', String _ s' => drop n' s'
  end.

Fixpoint take (n : nat) (s : string) : string :=
  match n, s with
  | O, _ => EmptyString
  | S _, EmptyString => EmptyString
  | S n', String c s' => String c (take n' s')
  end.

(** A slice bound: a negative index counts from the end, and the
    result is clamped to [0, len(s)]. *)
Definition bound (s : string) (i : Z) : nat :=
  Z.to_nat (if i <? 0 then Z.max (len s + i) 0 else Z.min i (len s)).

(** [s[i:]], [s[:j]] and [s[i:j]] *)
Definition slice_from (s : string) (i : Z) : string := drop (bound s i) s.
Definition slice_to (s : string) (j : Z) : string := take (bound s j) s.
Definition slice (s : string) (i j : Z) : string :=
  take (bound s j - bound s i) (drop (bound s i) s).

(** [s.rfind(c)] for a one-character [c]: the highest index at which
    [c] occurs, or [-1].  The scan runs left to right and remembers
    the last hit. *)
Fixpoint rfind_scan (c : ascii) (s : string) (i last : Z) : Z :=
  match s with
  | EmptyString => last
  | String a s' => rfind_scan c s' (i + 1) (if Ascii.eqb a c then i else last)
  end.

Definition rfind (s : string) (c : ascii) : Z := rfind_scan c s 0 (-1).

(** [s.startswith(t)] and [s.endswith(t)] *)
Fixpoint startswith (s t : string) : bool :=
  match t, s with
  | EmptyString, _ => true
  | String _ _, EmptyString => false
  | String b t', String a s' => Ascii.eqb a b && startswith s' t'
  end.

Definition endswith (s t : string) : bool :=
  String.eqb (slice_from s (len s - len t)) t && (len t <=? len s).

(** [s.split(c)] for a one-character separator [c]; the result is
    never empty. *)
Fixpoint split (c : ascii) (s : string) : list string :=
  match s with
  | EmptyString => [EmptyString]
  | String a s' =>
      if Ascii.eqb a c then EmptyString :: split c s'
      else match split c s' with
           | [] => [String a EmptyString]
           | w :: ws => String a w :: ws
           end
  end.

(** [sep.join(parts)] *)
Definition join (sep : string) (parts : list string) : string :=
  String.concat sep parts.

(** [c * n] for a one-character [c] *)
Fixpoint times (c : ascii) (n : nat) : string :=
  match n with
  | O => EmptyString
  | S n' => String c (times c n')
  end.

(** [c in s] for a one-character [c] *)
Fixpoint contains (c : ascii) (s : string) : bool :=
  match s with
  | EmptyString => false
  | String a s' => Ascii.eqb a c || contains c s'
  end.

(** Truthiness of a [str]: only the empty string is false. *)
Definition truthy (s : string) : bool := negb (String.eqb s EmptyString).

End PyStr.

(** ** [os.path] on a POSIX host

    The functions of CPython's [posixpath] and [genericpath] that
    [execute] calls, statement by statement.  The export directory
    [/home/casey/dream/static] places the add-on on a POSIX host. *)

Module posixpath.

Definition sep : ascii := "/"%char.
Definition extsep : ascii := "."%char.
Definition curdir : string := ".".
Definition pardir : string := "..".

(** [basename(p)]: [i = p.rfind(sep) + 1; return p[i:]] *)
Definition basename (p : string) : string :=
  let i := PyStr.rfind p sep + 1 in
  PyStr.slice_from p i.

(** The [while filenameIndex < dotIndex] loop of
    [genericpath._splitext]; it runs at most [dotIndex -
    filenameIndex] times, which is the counter [n]. *)
Fixpoint _splitext_loop (n : nat) (p : string) (extsep : ascii)
    (filenameIndex dotIndex : Z) : string * string :=
  match n with
  | O => (p, PyStr.slice_to p 0)
  | S n' =>
      if negb (String.eqb (PyStr.slice p filenameIndex (filenameIndex + 1))
                          (String extsep EmptyString))
      then (PyStr.slice_to p dotIndex, PyStr.slice_from p dotIndex)
      else _splitext_loop n' p extsep (filenameIndex + 1) dotIndex
  end.

Definition _splitext (p : string) (sep : ascii) (altsep : option ascii)
    (extsep : ascii) : string * string :=
  let sepIndex := PyStr.rfind p sep in
  let sepIndex :=
    match altsep with
    | Some a => Z.max sepIndex (PyStr.rfind p a)
    | None => sepIndex
    end in
  let dotIndex := PyStr.rfind p extsep in
  if dotIndex >? sepIndex then
    let filenameIndex := sepIndex + 1 in
    _splitext_loop (Z.to_nat (dotIndex - filenameIndex)) p extsep
                   filenameIndex dotIndex
  else (p, PyStr.slice_to p 0).

(** [splitext(p)] *)
Definition splitext (p : string) : string * string :=
  _splitext p sep None extsep.

(** [join(a, *p)] *)
Definition join (a : string) (p : list string) : string :=
  fold_left
    (fun path b =>
       if PyStr.startswith b (String sep EmptyString) then b
       else if negb (PyStr.truthy path)
               || PyStr.endswith path (String sep EmptyString)
            then path +:+ b
            else path +:+ String sep EmptyString +:+ b)
    p a.

(** One iteration of the component loop of [normpath]. *)
Definition normpath_step (initial_slashes : nat)
    (new_comps : list string) (comp : string) : list string :=
  if String.eqb comp EmptyString || String.eqb comp curdir then new_comps
  else if negb (String.eqb comp pardir)
          || (Nat.eqb initial_slashes 0 && Nat.eqb (length new_comps) 0)
          || (negb (Nat.eqb (length new_comps) 0)
              && String.eqb (List.last new_comps EmptyString) pardir)
       then new_comps ++ [comp]
       else if negb (Nat.eqb (length new_comps) 0)
            then removelast new_comps
            else new_comps.

(** [normpath(path)] *)
Definition normpath (path : string) : string :=
  if String.eqb path EmptyString then curdir
  else
    let initial_slashes :=
      if PyStr.startswith path (PyStr.times sep 1) then
        if PyStr.startswith path (PyStr.times sep 2)
           && negb (PyStr.startswith path (PyStr.times sep 3))
        then 2%nat else 1%nat
      else 0%nat in
    let comps := PyStr.split sep path in
    let new_comps := fold_left (normpath_step initial_slashes) comps [] in
    let path := PyStr.join (String sep EmptyString) new_comps in
    let path :=
      if negb (Nat.eqb initial_slashes 0)
      then PyStr.times sep initial_slashes +:+ path
      else path in
    if PyStr.truthy path then path else curdir.

End posixpath.

(** ** The host application ([bpy]) as far as the add-on uses it

    The host state holds what the add-on reads ([bpy.data.filepath]),
    the two registries it writes (the registered operator classes and
    the draw callbacks of the panel [SCENE_PT_scene]) and, in call
    order, the log of the calls that leave the add-on: the messages
    given to [Operator.report] and the invocations of
    [bpy.ops.export_scene.gltf].  The exporter itself belongs to the
    host: an invocation is recorded with its arguments, and how the
    exporter answers it, by raising or by returning a status set, is a
    parameter of the model.

    Classes and functions are identified by name.  [register] and
    [unregister] are those of one execution of the file; the objects a
    further execution creates carry the same names and are not told
    apart from the first ones ([run_file] below). *)

Module bpy.

Inductive ReportType := DEBUG | INFO | OPERATOR | PROPERTY | WARNING | ERROR.

Inductive OperatorReturn :=
  RUNNING_MODAL | CANCELLED | FINISHED | PASS_THROUGH | INTERFACE.

Inductive PyExc := ValueError | RuntimeError.

(** An operator class, identified by its name and class attributes:
    the class object of one execution of the file. *)
Record OperatorClass := {
  cls_name : string;
  bl_idname : string;
  bl_label : string;
  bl_description : string;
}.

(** A module-level function used as a draw callback.  Python compares
    functions by identity; within one execution of the file that is
    the qualified name.  The function objects of several executions
    of the file bear the same name and are occurrences of the same
    [FuncRef] here: see [run_file]. *)
Record FuncRef := { func_module : string; func_name : string }.

(** Keyword arguments of [bpy.ops.export_scene.gltf]. *)
Record GltfArgs := {
  filepath : string;
  export_format : string;
  export_apply : bool;
}.

(** What a draw callback puts on a layout. *)
Inductive UIItem := OperatorButton (idname icon : string).
Definition UILayout := list UIItem.

(** A call that leaves the add-on. *)
Inductive HostEvent :=
| Ev_report (type : list ReportType) (message : string)
| Ev_export_scene_gltf (args : GltfArgs).

Global Instance ReportType_eq_dec : EqDecision ReportType.
Proof. solve_decision. Defined.
Global Instance OperatorReturn_eq_dec : EqDecision OperatorReturn.
Proof. solve_decision. Defined.
Global Instance OperatorClass_eq_dec : EqDecision OperatorClass.
Proof. solve_decision. Defined.
Global Instance FuncRef_eq_dec : EqDecision FuncRef.
Proof. solve_decision. Defined.
Global Instance GltfArgs_eq_dec : EqDecision GltfArgs.
Proof. solve_decision. Defined.
Global Instance UIItem_eq_dec : EqDecision UIItem.
Proof. solve_decision. Defined.
Global Instance HostEvent_eq_dec : EqDecision HostEvent.
Proof. solve_decision. Defined.

Global Instance OperatorClass_countable : Countable OperatorClass.
Proof.
  refine (inj_countable'
            (fun c => (cls_name c, bl_idname c, bl_label c, bl_description c))
            (fun t => match t with
                      | (n, i, l, d) => Build_OperatorClass n i l d
                      end) _).
  intros []; reflexivity.
Defined.

Record Host := {
  data_filepath : string;
  classes : gset OperatorClass;
  SCENE_PT_scene_draw_funcs : list FuncRef;
  host_log : list HostEvent;
}.

(** Host calls run in a state monad that can raise. *)
Definition M (A : Type) : Type := Host -> Host * (PyExc + A).

Definition ret {A} (a : A) : M A := fun s => (s, inr a).
Definition raise {A} (e : PyExc) : M A := fun s => (s, inl e).
Definition bind {A B} (m : M A) (k : A -> M B) : M B :=
  fun s =>
    match m s with
    | (s', inr a) => k a s'
    | (s', inl e) => (s', inl e)
    end.

Global Instance M_ret : MRet M := @ret.
Global Instance M_bind : MBind M := fun A B k m => bind m k.

Definition modify (f : Host -> Host) : M unit := fun s => (f s, inr tt).

Definition with_classes (f : gset OperatorClass -> gset OperatorClass)
    (s : Host) : Host :=
  {| data_filepath := data_filepath s;
     classes := f (classes s);
     SCENE_PT_scene_draw_funcs := SCENE_PT_scene_draw_funcs s;
     host_log := host_log s |}.

Definition with_draw_funcs (f : list FuncRef -> list FuncRef)
    (s : Host) : Host :=
  {| data_filepath := data_filepath s;
     classes := classes s;
     SCENE_PT_scene_draw_funcs := f (SCENE_PT_scene_draw_funcs s);
     host_log := host_log s |}.

Definition with_host_log (f : list HostEvent -> list HostEvent)
    (s : Host) : Host :=
  {| data_filepath := data_filepath s;
     classes := classes s;
     SCENE_PT_scene_draw_funcs := SCENE_PT_scene_draw_funcs s;
     host_log := f (host_log s) |}.

(** [list.remove(x)]: drop the first occurrence; [None] stands for
    the [ValueError] of a missing element. *)
Fixpoint list_remove {A} `{EqDecision A} (x : A) (l : list A)
    : option (list A) :=
  match l with
  | [] => None
  | y :: l' =>
      if decide (y = x) then Some l'
      else match list_remove x l' with
           | Some r => Some (y :: r)
           | None => None
           end
  end.

(** [bpy.data.filepath] *)
Definition data_filepath_get : M string :=
  fun s => (s, inr (data_filepath s)).

(** [Operator.report(type, message)] *)
Definition report (type : list ReportType) (message : string) : M unit :=
  modify (with_host_log (fun l => l ++ [Ev_report type message])).

(** How the host's exporter answers an invocation: it raises an
    exception or returns its status set. *)
Definition Exporter : Type := GltfArgs -> Host -> PyExc + list OperatorReturn.

(** [bpy.ops.export_scene.gltf(filepath=..., export_format=...,
    export_apply=...)]: the invocation is logged, and the call raises
    or returns as the exporter answers. *)
Definition ops_export_scene_gltf (exporter : Exporter) (args : GltfArgs)
    : M (list OperatorReturn) :=
  fun s =>
    (with_host_log (fun l => l ++ [Ev_export_scene_gltf args]) s,
     exporter args s).

(** [bpy.utils.register_class(cls)] for a class object the host may
    have seen: if it is registered already it is refused with
    [ValueError].  This is the call of a [register] that is called
    again; for the class object of a new execution of the file see
    [utils_register_class_new]. *)
Definition utils_register_class (cls : OperatorClass) : M unit :=
  fun s =>
    if decide (cls ∈ classes s) then raise ValueError s
    else modify (with_classes (fun cs => cs ∪ {[cls]})) s.

(** [bpy.utils.register_class(cls)] for a class object the host has
    not seen before: it is accepted, and a class that was registered
    with the same [bl_idname] is unregistered in its favour. *)
Definition utils_register_class_new (cls : OperatorClass) : M unit :=
  modify (with_classes
            (fun cs => filter (fun c => bl_idname c <> bl_idname cls) cs
                       ∪ {[cls]})).

(** [bpy.utils.unregister_class(cls)]: a class that is not
    registered is refused with [RuntimeError]. *)
Definition utils_unregister_class (cls : OperatorClass) : M unit :=
  fun s =>
    if decide (cls ∈ classes s)
    then modify (with_classes (fun cs => cs ∖ {[cls]})) s
    else raise RuntimeError s.

(** [bpy.types.SCENE_PT_scene.append(draw_func)]: the callback goes
    to the end of the panel's list of draw functions. *)
Definition SCENE_PT_scene_append (draw_func : FuncRef) : M unit :=
  modify (with_draw_funcs (fun l => l ++ [draw_func])).

(** [bpy.types.SCENE_PT_scene.remove(draw_func)]: [list.remove] with
    its [ValueError] swallowed. *)
Definition SCENE_PT_scene_remove (draw_func : FuncRef) : M unit :=
  modify (with_draw_funcs
            (fun l => match list_remove draw_func l with
                      | Some l' => l'
                      | None => l
                      end)).

End bpy.

(** ** The add-on *)

Import bpy.

(** [class QuickExportGLTFOperator(bpy.types.Operator)] *)
Definition QuickExportGLTFOperator : OperatorClass :=
  {| cls_name := "QuickExportGLTFOperator";
     bl_idname := "export_scene.quick_gltf";
     bl_label := "Quick Export glTF";
     bl_description := "Export current file to ~/dream/static/{filename}.glb" |}.

(** [QuickExportGLTFOperator.execute(self, _ctx)], on a host whose
    exporter answers as [exporter]. *)
Definition execute_with (exporter : Exporter) : M (list OperatorReturn) :=
  blend_path ← data_filepath_get;
  if negb (PyStr.truthy blend_path) then
    report [WARNING] "Please save the .blend file first.";;
    mret [CANCELLED]
  else
    let blend_name := posixpath.basename blend_path in
    let name_no_ext := fst (posixpath.splitext blend_name) in
    let export_path :=
      posixpath.join
        ("/home/casey/dream/static/" +:+ name_no_ext +:+ ".glb") [] in
    let export_path := posixpath.normpath export_path in
    ops_export_scene_gltf exporter
      {| filepath := export_path;
         export_format := "GLB";
         export_apply := true |};;
    report [INFO] ("Exported to " +:+ export_path);;
    mret [FINISHED].

(** An exporter that returns [{"FINISHED"}], and one that raises. *)
Definition exporter_returns : Exporter := fun _ _ => inr [FINISHED].
Definition exporter_raises : Exporter := fun _ _ => inl RuntimeError.

(** [execute] on a host whose exporter returns. *)
Definition execute : M (list OperatorReturn) := execute_with exporter_returns.

(** [draw_export_button(self, _ctx)], as its effect on [self.layout]. *)
Definition draw_export_button (layout : UILayout) : UILayout :=
  layout ++ [OperatorButton "export_scene.quick_gltf" "EXPORT"].

(** The function object [draw_export_button]. *)
Definition draw_export_button_ref : FuncRef :=
  {| func_module := "blender_quick_export";
     func_name := "draw_export_button" |}.

(** The statements of [register] and [unregister] are calls into the
    host's registries. *)
Inductive RegistryCall :=
| Call_register_class (cls : OperatorClass)
| Call_unregister_class (cls : OperatorClass)
| Call_SCENE_PT_scene_append (draw_func : FuncRef)
| Call_SCENE_PT_scene_remove (draw_func : FuncRef).

Definition do_call (c : RegistryCall) : M unit :=
  match c with
  | Call_register_class cls => utils_register_class cls
  | Call_unregister_class cls => utils_unregister_class cls
  | Call_SCENE_PT_scene_append f => SCENE_PT_scene_append f
  | Call_SCENE_PT_scene_remove f => SCENE_PT_scene_remove f
  end.

(** A function body made of such calls, run in order up to the first
    exception. *)
Fixpoint run_calls (body : list RegistryCall) : M unit :=
  match body with
  | [] => mret tt
  | c :: body' => do_call c;; run_calls body'
  end.

(** [s'] is a state strictly inside a run of [body] from [s]: the
    state in which a non-empty part of its calls has returned and a
    non-empty rest is still to be made. *)
Definition inside (body : list RegistryCall) (s s' : Host) : Prop :=
  exists made rest,
    body = made ++ rest /\ made <> [] /\ rest <> []
    /\ run_calls made s = (s', inr tt).

(** The call that takes back what a call has put into a registry. *)
Definition undo_call (c : RegistryCall) : RegistryCall :=
  match c with
  | Call_register_class cls => Call_unregister_class cls
  | Call_unregister_class cls => Call_register_class cls
  | Call_SCENE_PT_scene_append f => Call_SCENE_PT_scene_remove f
  | Call_SCENE_PT_scene_remove f => Call_SCENE_PT_scene_append f
  end.

Definition register_body : list RegistryCall :=
  [ Call_register_class QuickExportGLTFOperator;
    Call_SCENE_PT_scene_append draw_export_button_ref ].

Definition unregister_body : list RegistryCall :=
  [ Call_SCENE_PT_scene_remove draw_export_button_ref;
    Call_unregister_class QuickExportGLTFOperator ].

(** [register()] and [unregister()] *)
Definition register : M unit := run_calls register_body.
Definition unregister : M unit := run_calls unregister_body.

(** Executing the file under the module name [name] (lines 1 to 57).
    The [class] and [def] statements create a new class object and new
    function objects, and under the name [__main__] the new [register]
    runs at once.  The host has not seen the new class object, so
    [register_class] accepts it, and the new callback is one more
    entry of the panel's list.  With the objects identified by name,
    the new class takes the place of the old one and the new callback
    is a further occurrence of [draw_export_button]; after it,
    [register], [unregister] and [execute] stand for the functions of
    the latest execution. *)
Definition run_file (name : string) : M unit :=
  if String.eqb name "__main__" then
    utils_register_class_new QuickExportGLTFOperator;;
    SCENE_PT_scene_append draw_export_button_ref
  else mret tt.

(** ** Vocabulary of the properties *)

(** A name made of the character [c] only (also the empty name). *)
Fixpoint only_char (c : ascii) (s : string) : bool :=
  match s with
  | EmptyString => true
  | String a s' => Ascii.eqb a c && only_char c s'
  end.

(** The value of the local [export_path] of [execute] at its export
    call, as a function of the value of [blend_path]. *)
Definition export_path (blend_path : string) : string :=
  let blend_name := posixpath.basename blend_path in
  let name_no_ext := fst (posixpath.splitext blend_name) in
  let export_path :=
    posixpath.join ("/home/casey/dream/static/" +:+ name_no_ext +:+ ".glb") [] in
  posixpath.normpath export_path.

(** The directory all exports go to. *)
Definition export_dir : string := "/home/casey/dream/static".

(** The export call [execute] makes for a given export path. *)
Definition gltf_call (path : string) : GltfArgs :=
  {| filepath := path; export_format := "GLB"; export_apply := true |}.

(** The two events [execute] logs for a saved file, in call order. *)
Definition export_events (path : string) : list HostEvent :=
  [ Ev_export_scene_gltf (gltf_call path);
    Ev_report [INFO] ("Exported to " +:+ path) ].

(** The export calls among some events. *)
Definition export_calls (evs : list HostEvent) : list GltfArgs :=
  flat_map (fun ev => match ev with
                      | Ev_export_scene_gltf args => [args]
                      | Ev_report _ _ => []
                      end) evs.

(** A host that has not loaded the add-on, with the given file open. *)
Definition host_with_file (blend_path : string) : Host :=
  {| data_filepath := blend_path;
     classes := ∅;
     SCENE_PT_scene_draw_funcs := [];
     host_log := [] |}.

(** A draw callback of another add-on. *)
Definition foreign_draw : FuncRef :=
  {| func_module := "other_addon"; func_name := "draw_panel_extras" |}.

(** A host whose panel already lists the add-on's callback, followed by
    a foreign one, while the operator class is not registered. *)
Definition host_with_listed_callback : Host :=
  {| data_filepath := "";
     classes := ∅;
     SCENE_PT_scene_draw_funcs := [draw_export_button_ref; foreign_draw];
     host_log := [] |}.

(** A host that has loaded the add-on: [register] has run once. *)
Definition host_with_addon : Host := fst (register (host_with_file "")).

(** A path component that [normpath] keeps as it is. *)
Definition plain_component (s : string) : Prop :=
  PyStr.contains posixpath.sep s = false /\ s <> "" /\ s <> "." /\ s <> "..".

(** Drawing the panel: the host calls the panel's draw functions in
    list order on the panel's layout.  What the callbacks of the host
    and of other add-ons draw is the parameter [others]. *)
Definition call_draw (others : FuncRef -> UILayout -> UILayout)
    (f : FuncRef) (layout : UILayout) : UILayout :=
  if decide (f = draw_export_button_ref) then draw_export_button layout
  else others f layout.

Definition panel_layout (others : FuncRef -> UILayout -> UILayout)
    (s : Host) : UILayout :=
  fold_left (fun layout f => call_draw others f layout)
            (SCENE_PT_scene_draw_funcs s) [].

(** The panel never offers the button of an operator that is not
    registered. *)
Definition button_implies_operator (s : Host) : Prop :=
  draw_export_button_ref ∈ SCENE_PT_scene_draw_funcs s ->
  QuickExportGLTFOperator ∈ classes s.

(** How often the add-on's callback is in the panel's list. *)
Definition button_count (s : Host) : nat :=
  length (filter (fun f => f = draw_export_button_ref)
                 (SCENE_PT_scene_draw_funcs s)).

(** What the host and other add-ons may do between two calls into this
    add-on: anything that leaves its class and its callback alone. *)
Definition foreign_step (s s' : Host) : Prop :=
  (QuickExportGLTFOperator ∈ classes s'
   <-> QuickExportGLTFOperator ∈ classes s)
  /\ button_count s' = button_count s.

(** The host states that can be reached from a host that has not
    loaded the add-on: by calls of [register], [unregister] and
    [execute], by executing the file again, and by what the host and
    other add-ons do. *)
Inductive reachable : Host -> Prop :=
| reachable_start s :
    QuickExportGLTFOperator ∉ classes s ->
    draw_export_button_ref ∉ SCENE_PT_scene_draw_funcs s ->
    reachable s
| reachable_register s : reachable s -> reachable (fst (register s))
| reachable_unregister s : reachable s -> reachable (fst (unregister s))
| reachable_execute exporter s :
    reachable s -> reachable (fst (execute_with exporter s))
| reachable_run_file name s : reachable s -> reachable (fst (run_file name s))
| reachable_foreign s s' : reachable s -> foreign_step s s' -> reachable s'.

(** The file executed three times as [__main__], then [unregister]
    called once. *)
Definition host_after_reruns : Host :=
  fst (unregister
         (fst (run_file "__main__"
                 (fst (run_file "__main__"
                         (fst (run_file "__main__" (host_with_file "")))))))).

(** In the words of the specification, without the path functions of
    the code.
    The basename of a path is what follows its last separator, the
    whole path if it has none. *)
Fixpoint spec_basename (p : string) : string :=
  match p with
  | EmptyString => EmptyString
  | String c p' =>
      if PyStr.contains "/" p' then spec_basename p'
      else if Ascii.eqb c "/" then p' else p
  end.

(** A name up to, and without, its last dot; the name if it has none. *)
Fixpoint before_last_dot (name : string) : string :=
  match name with
  | EmptyString => EmptyString
  | String c name' =>
      if Ascii.eqb c "." && negb (PyStr.contains "." name') then EmptyString
      else String c (before_last_dot name')
  end.

(** A name without its extension: the extension runs from the last
    dot to the end, and the dots a name begins with are part of the
    name, not the start of an extension. *)
Fixpoint spec_without_extension (name : string) : string :=
  match name with
  | EmptyString => EmptyString
  | String c name' =>
      if Ascii.eqb c "." then String c (spec_without_extension name')
      else before_last_dot name
  end.

(** The name of the exported file for a source path, in these words. *)
Definition spec_glb_name (blend_path : string) : string :=
  spec_without_extension (spec_basename blend_path) +:+ ".glb".

(** The value of the local [name_no_ext] of [execute], as a function
    of the value of [blend_path]. *)
Definition name_no_ext (blend_path : string) : string :=
  fst (posixpath.splitext (posixpath.basename blend_path)).

(** The item [draw_export_button] puts on a layout, and how often a
    layout shows it. *)
Definition export_button : UIItem :=
  OperatorButton "export_scene.quick_gltf" "EXPORT".

Definition shown_export_buttons (layout : list UIItem) : nat :=
  length (filter (fun item => item = export_button) layout).

(** * The path functions on sample inputs, as CPython evaluates them *)

Example basename_ex1 : posixpath.basename "/a/b/scene.blend" = "scene.blend".
Proof. reflexivity. Qed.
Example basename_ex2 : posixpath.basename "/a/b/" = "".
Proof. reflexivity. Qed.
Example splitext_ex1 : posixpath.splitext "a.b.blend" = ("a.b", ".blend").
Proof. reflexivity. Qed.
Example splitext_ex2 : posixpath.splitext ".blend" = (".blend", "").
Proof. reflexivity. Qed.
Example splitext_ex3 : posixpath.splitext "...x.y" = ("...x", ".y").
Proof. reflexivity. Qed.
Example splitext_ex4 : posixpath.splitext "a/.b" = ("a/.b", "").
Proof. reflexivity. Qed.
Example splitext_ex5 : posixpath.splitext "a.b/c" = ("a.b/c", "").
Proof. reflexivity. Qed.
Example splitext_ex6 : posixpath.splitext ".." = ("..", "").
Proof. reflexivity. Qed.
Example splitext_ex7 : posixpath.splitext "foo." = ("foo", ".").
Proof. reflexivity. Qed.
Example splitext_ex8 : posixpath.splitext "a..b" = ("a.", ".b").
Proof. reflexivity. Qed.
Example splitext_ex9 : posixpath.splitext "x/..y.z" = ("x/..y", ".z").
Proof. reflexivity. Qed.
Example normpath_ex1 : posixpath.normpath "/a//b/./c/../d" = "/a/b/d".
Proof. reflexivity. Qed.
Example normpath_ex2 : posixpath.normpath "//a/.." = "//".
Proof. reflexivity. Qed.
Example normpath_ex3 : posixpath.normpath "../a/../.." = "../..".
Proof. reflexivity. Qed.
Example normpath_ex4 : posixpath.normpath "///a/" = "/a".
Proof. reflexivity. Qed.
Example normpath_ex5 : posixpath.normpath "" = ".".
Proof. reflexivity. Qed.
Example normpath_ex6 : posixpath.normpath "a/.." = ".".
Proof. reflexivity. Qed.
Example normpath_ex7 : posixpath.normpath "/.." = "/".
Proof. reflexivity. Qed.
Example normpath_ex8 : posixpath.normpath "//" = "//".
Proof. reflexivity. Qed.
Example export_path_ex1 : export_path "/t/.." = "/home/casey/dream/static/...glb".
Proof. reflexivity. Qed.
Example export_path_ex2 : export_path "/tmp/x/" = "/home/casey/dream/static/.glb".
Proof. reflexivity. Qed.
Example export_path_ex3 : export_path "/t/a." = "/home/casey/dream/static/a.glb".
Proof. reflexivity. Qed.
Example spec_basename_ex1 : spec_basename "/a/b/scene.blend" = "scene.blend".
Proof. reflexivity. Qed.
Example spec_basename_ex2 : spec_basename "/a/b/" = "".
Proof. reflexivity. Qed.
Example spec_without_extension_ex1 : spec_without_extension "a.b.blend" = "a.b".
Proof. reflexivity. Qed.
Example spec_without_extension_ex2 : spec_without_extension ".blend" = ".blend".
Proof. reflexivity. Qed.
Example spec_without_extension_ex3 : spec_without_extension "...x.y" = "...x".
Proof. reflexivity. Qed.
Example spec_without_extension_ex4 : spec_without_extension "a..b" = "a.".
Proof. reflexivity. Qed.
Example spec_without_extension_ex5 : spec_without_extension "foo." = "foo".
Proof. reflexivity. Qed.
Example join_ex1 : posixpath.join "/x/y" ["z.glb"] = "/x/y/z.glb".
Proof. reflexivity. Qed.
Example join_ex2 : posixpath.join "/x/y/" ["z.glb"; "/w"; "v"] = "/w/v".
Proof. reflexivity. Qed.

(** * Facts about the string primitives *)

Section StringFacts.

Implicit Types (s t u : string) (c a : ascii).

Lemma str_app_nil_l s : "" +:+ s = s.
Proof. reflexivity. Qed.

Lemma str_app_cons a s t : String a s +:+ t = String a (s +:+ t).
Proof. reflexivity. Qed.

Lemma str_app_nil_r s : s +:+ "" = s.
Proof. induction s as [|a s IH]; [reflexivity|]. by rewrite str_app_cons, IH. Qed.

Lemma str_app_assoc s t u : (s +:+ t) +:+ u = s +:+ (t +:+ u).
Proof.
  induction s as [|a s IH]; [reflexivity|]. by rewrite !str_app_cons, IH.
Qed.

Lemma str_length_app s t :
  String.length (s +:+ t) = (String.length s + String.length t)%nat.
Proof.
  induction s as [|a s IH]; [reflexivity|].
  rewrite str_app_cons. simpl. by rewrite IH.
Qed.

Lemma len_app s t : PyStr.len (s +:+ t) = PyStr.len s + PyStr.len t.
Proof. unfold PyStr.len. rewrite str_length_app. lia. Qed.

Lemma len_nonneg s : 0 <= PyStr.len s.
Proof. unfold PyStr.len. lia. Qed.

Lemma len_cons a s : PyStr.len (String a s) = PyStr.len s + 1.
Proof. unfold PyStr.len. simpl. lia. Qed.

Lemma drop_app s t : PyStr.drop (String.length s) (s +:+ t) = t.
Proof. induction s as [|a s IH]; [by destruct t|]. by rewrite str_app_cons. Qed.

Lemma take_app s t : PyStr.take (String.length s) (s +:+ t) = s.
Proof.
  induction s as [|a s IH]; [by destruct t|].
  rewrite str_app_cons. simpl. by rewrite IH.
Qed.

Lemma take_drop s n : PyStr.take n s +:+ PyStr.drop n s = s.
Proof.
  revert n. induction s as [|a s IH]; intros [|n]; try reflexivity.
  simpl. by rewrite str_app_cons, IH.
Qed.

Lemma bound_in_range s i :
  0 <= i <= PyStr.len s -> PyStr.bound s i = Z.to_nat i.
Proof.
  intros Hi. unfold PyStr.bound.
  destruct (i <? 0) eqn:E; [lia|]. f_equal. lia.
Qed.

Lemma bound_len s t : PyStr.bound (s +:+ t) (PyStr.len s) = String.length s.
Proof.
  rewrite bound_in_range.
  - unfold PyStr.len. lia.
  - rewrite len_app. pose proof (len_nonneg s). pose proof (len_nonneg t). lia.
Qed.

(** Slices at the end of a known prefix. *)
Lemma slice_from_app s t : PyStr.slice_from (s +:+ t) (PyStr.len s) = t.
Proof. unfold PyStr.slice_from. by rewrite bound_len, drop_app. Qed.

Lemma slice_to_app s t : PyStr.slice_to (s +:+ t) (PyStr.len s) = s.
Proof. unfold PyStr.slice_to. by rewrite bound_len, take_app. Qed.

Lemma bound_0 s : PyStr.bound s 0 = 0%nat.
Proof. rewrite bound_in_range; [done|]. pose proof (len_nonneg s). lia. Qed.

Lemma slice_from_0 s : PyStr.slice_from s 0 = s.
Proof. unfold PyStr.slice_from. by rewrite bound_0. Qed.

Lemma slice_to_0 s : PyStr.slice_to s 0 = "".
Proof. unfold PyStr.slice_to. rewrite bound_0. by destruct s. Qed.

Lemma slice_one s a t :
  PyStr.slice (s +:+ String a t) (PyStr.len s) (PyStr.len s + 1)
  = String a "".
Proof.
  unfold PyStr.slice. rewrite bound_len.
  rewrite bound_in_range.
  2:{ rewrite len_app, len_cons.
      pose proof (len_nonneg s). pose proof (len_nonneg t). lia. }
  rewrite drop_app.
  replace (Z.to_nat (PyStr.len s + 1) - String.length s)%nat with 1%nat
    by (unfold PyStr.len; lia).
  simpl. by destruct t.
Qed.

(** Membership of a character. *)
Lemma contains_app c s t :
  PyStr.contains c (s +:+ t) = PyStr.contains c s || PyStr.contains c t.
Proof.
  induction s as [|a s IH]; [reflexivity|].
  rewrite str_app_cons. simpl. rewrite IH. by rewrite orb_assoc.
Qed.

Lemma contains_last c s :
  PyStr.contains c s = true ->
  exists s1 s2, s = s1 +:+ String c s2 /\ PyStr.contains c s2 = false.
Proof.
  induction s as [|a s IH]; [discriminate|]. simpl. intros H.
  destruct (PyStr.contains c s) eqn:Hs.
  - destruct IH as (s1 & s2 & -> & H2); [done|].
    exists (String a s1), s2. by rewrite str_app_cons.
  - rewrite orb_false_r in H. apply Ascii.eqb_eq in H as ->.
    by exists "", s.
Qed.

(** [rfind]: [-1] when the character is absent, the position of the
    last occurrence otherwise. *)
Lemma rfind_scan_absent c s i last :
  PyStr.contains c s = false -> PyStr.rfind_scan c s i last = last.
Proof.
  revert i last. induction s as [|a s IH]; intros i last; [done|].
  simpl. intros [Ha Hs]%orb_false_elim. rewrite Ha. by apply IH.
Qed.

Lemma rfind_scan_last c s1 s2 i last :
  PyStr.contains c s2 = false ->
  PyStr.rfind_scan c (s1 +:+ String c s2) i last = i + PyStr.len s1.
Proof.
  intros H2. revert i last. induction s1 as [|a s1 IH]; intros i last.
  - rewrite str_app_nil_l. simpl. rewrite Ascii.eqb_refl.
    rewrite rfind_scan_absent by done. unfold PyStr.len. simpl. lia.
  - rewrite str_app_cons. simpl. rewrite IH, len_cons. lia.
Qed.

Lemma rfind_absent c s : PyStr.contains c s = false -> PyStr.rfind s c = -1.
Proof. apply rfind_scan_absent. Qed.

Lemma rfind_last c s1 s2 :
  PyStr.contains c s2 = false ->
  PyStr.rfind (s1 +:+ String c s2) c = PyStr.len s1.
Proof. intros H. unfold PyStr.rfind. by rewrite rfind_scan_last. Qed.

End StringFacts.

(** * Facts about [os.path] *)

Section PathFacts.

Implicit Types (p b s t e stem ext : string).

Local Abbreviation sep := posixpath.sep.
Local Abbreviation dot := posixpath.extsep.

(** ** [basename] *)

Lemma basename_no_dir p :
  PyStr.contains sep p = false -> posixpath.basename p = p.
Proof.
  intros H. unfold posixpath.basename.
  rewrite rfind_absent by done. apply slice_from_0.
Qed.

Lemma basename_dir s b :
  PyStr.contains sep b = false ->
  posixpath.basename (s +:+ String sep b) = b.
Proof.
  intros H. unfold posixpath.basename.
  rewrite rfind_last by done.
  replace (s +:+ String sep b) with ((s +:+ String sep "") +:+ b)
    by (by rewrite str_app_assoc, str_app_cons, str_app_nil_l).
  replace (PyStr.len s + 1) with (PyStr.len (s +:+ String sep ""))
    by (rewrite len_app, len_cons; unfold PyStr.len; simpl; lia).
  apply slice_from_app.
Qed.

(** The basename is what follows the last separator. *)
Lemma basename_cases p :
  (PyStr.contains sep p = false /\ posixpath.basename p = p)
  \/ (exists s, p = s +:+ String sep (posixpath.basename p)).
Proof.
  destruct (PyStr.contains sep p) eqn:E.
  - right. destruct (contains_last _ _ E) as (s1 & s2 & -> & H2).
    exists s1. by rewrite basename_dir.
  - left. split; [done|]. by apply basename_no_dir.
Qed.

Lemma basename_sep_free p :
  PyStr.contains sep (posixpath.basename p) = false.
Proof.
  destruct (PyStr.contains sep p) eqn:E.
  - destruct (contains_last _ _ E) as (s1 & s2 & -> & H2).
    by rewrite basename_dir.
  - by rewrite basename_no_dir.
Qed.

(** ** [splitext] *)

(** The loop either gives up on the extension or cuts at [dotIndex]. *)
Lemma _splitext_loop_shape n p c i d :
  posixpath._splitext_loop n p c i d = (p, "")
  \/ posixpath._splitext_loop n p c i d
     = (PyStr.slice_to p d, PyStr.slice_from p d).
Proof.
  revert i. induction n as [|n IH]; intros i; simpl.
  - left. by rewrite slice_to_0.
  - destruct (negb _); [by right | apply IH].
Qed.

(** [root + ext == p], for every path. *)
Lemma splitext_concat p :
  fst (posixpath.splitext p) +:+ snd (posixpath.splitext p) = p.
Proof.
  unfold posixpath.splitext, posixpath._splitext.
  destruct (_ >? _); simpl.
  - match goal with
    | |- context [posixpath._splitext_loop ?n ?q ?c ?i ?d] =>
        destruct (_splitext_loop_shape n q c i d) as [E|E]; rewrite E
    end; simpl.
    + apply str_app_nil_r.
    + apply take_drop.
  - rewrite slice_to_0. apply str_app_nil_r.
Qed.

(** The loop on a name [pre ++ rest ++ "." ++ e], entered at the
    start of [rest] with the last dot right after [rest]. *)
Lemma _splitext_loop_spec rest pre e :
  posixpath._splitext_loop (String.length rest)
    (pre +:+ rest +:+ String dot e) dot
    (PyStr.len pre) (PyStr.len pre + PyStr.len rest)
  = if only_char dot rest
    then (pre +:+ rest +:+ String dot e, "")
    else (pre +:+ rest, String dot e).
Proof.
  revert pre. induction rest as [|c rest IH]; intros pre.
  - simpl. by rewrite slice_to_0.
  - cbn [String.length posixpath._splitext_loop only_char].
    rewrite str_app_cons, slice_one.
    destruct (Ascii.eqb c dot) eqn:Ec; simpl.
    + apply Ascii.eqb_eq in Ec as ->. rewrite Ascii.eqb_refl. simpl.
      specialize (IH (pre +:+ String dot "")).
      rewrite !str_app_assoc, !str_app_cons, !str_app_nil_l in IH.
      rewrite len_app in IH.
      replace (PyStr.len pre + PyStr.len (String dot rest))
        with (PyStr.len pre + PyStr.len (String dot "") + PyStr.len rest)
        by (rewrite !len_cons; unfold PyStr.len; simpl; lia).
      replace (PyStr.len pre + 1)
        with (PyStr.len pre + PyStr.len (String dot ""))
        by (rewrite len_cons; unfold PyStr.len; simpl; lia).
      exact IH.
    + rewrite Ec. simpl.
      rewrite <- len_app, <- (str_app_cons c rest), <- str_app_assoc.
      by rewrite slice_to_app, slice_from_app.
Qed.

(** A name without separator and without dot has no extension. *)
Lemma splitext_no_dot b :
  PyStr.contains sep b = false -> PyStr.contains dot b = false ->
  posixpath.splitext b = (b, "").
Proof.
  intros Hs Hd. unfold posixpath.splitext, posixpath._splitext.
  rewrite !rfind_absent by done. simpl. by rewrite slice_to_0.
Qed.

(** A name without separator whose last dot comes after [stem]: the
    part from that dot on is the extension, unless [stem] is made of
    dots only (or is empty). *)
Lemma splitext_last_dot stem e :
  PyStr.contains sep stem = false -> PyStr.contains sep e = false ->
  PyStr.contains dot e = false ->
  posixpath.splitext (stem +:+ String dot e)
  = if only_char dot stem
    then (stem +:+ String dot e, "")
    else (stem, String dot e).
Proof.
  intros Hs He Hd. unfold posixpath.splitext, posixpath._splitext.
  rewrite (rfind_absent sep).
  2:{ rewrite contains_app, Hs. cbn [PyStr.contains orb]. by rewrite He. }
  rewrite rfind_last by done.
  assert ((PyStr.len stem >? -1) = true) as ->
    by (pose proof (len_nonneg stem); lia).
  replace (Z.to_nat (PyStr.len stem - (-1 + 1)))
    with (String.length stem) by (unfold PyStr.len; lia).
  pose proof (_splitext_loop_spec stem "" e) as H.
  rewrite !str_app_nil_l in H. exact H.
Qed.

(** ** [split], [join] and [normpath] on the export path *)

Lemma split_no_sep c s :
  PyStr.contains c s = false -> PyStr.split c s = [s].
Proof.
  induction s as [|a s IH]; [done|]. simpl.
  intros [Ha Hs]%orb_false_elim. by rewrite Ha, IH.
Qed.

Lemma startswith_sep_free s :
  PyStr.contains sep s = false ->
  PyStr.startswith s (String sep "") = false.
Proof.
  destruct s as [|a s]; [done|]. simpl.
  intros [Ha _]%orb_false_elim. by rewrite Ha.
Qed.

Lemma join_nothing s : posixpath.join s [] = s.
Proof. reflexivity. Qed.

Lemma join_export_dir s :
  PyStr.contains sep s = false ->
  posixpath.join export_dir [s] = export_dir +:+ "/" +:+ s.
Proof.
  intros H. unfold posixpath.join. cbn [fold_left].
  by rewrite startswith_sep_free.
Qed.

Lemma normpath_step_plain (n : nat) (l : list string) s :
  plain_component s -> posixpath.normpath_step n l s = l ++ [s].
Proof.
  intros (_ & H0 & H1 & H2). apply String.eqb_neq in H0, H1, H2.
  unfold posixpath.normpath_step, posixpath.curdir, posixpath.pardir.
  by rewrite H0, H1, H2.
Qed.

Lemma normpath_export s :
  plain_component s ->
  posixpath.normpath ("/home/casey/dream/static/" +:+ s)
  = "/home/casey/dream/static/" +:+ s.
Proof.
  intros Hs. pose proof Hs as (Hsep & _).
  rewrite !str_app_cons, str_app_nil_l.
  unfold posixpath.normpath.
  cbn [String.eqb PyStr.startswith PyStr.times Ascii.eqb Bool.eqb andb negb
       posixpath.sep PyStr.split].
  rewrite split_no_sep by done.
  cbn [fold_left]. rewrite normpath_step_plain by done.
  set (l := posixpath.normpath_step 1 _ "static").
  vm_compute in l. subst l.
  cbn [app PyStr.join String.concat Nat.eqb negb].
  rewrite !str_app_cons, !str_app_nil_l.
  reflexivity.
Qed.

End PathFacts.

(** * The basename and the extension in the words of the specification *)

Section SpecNames.

Implicit Types (p b s e stem : string).

Local Abbreviation sep := posixpath.sep.
Local Abbreviation dot := posixpath.extsep.

Lemma spec_basename_no_dir p :
  PyStr.contains sep p = false -> spec_basename p = p.
Proof.
  destruct p as [|c p]; [done|]. cbn [PyStr.contains spec_basename].
  intros [Hc Hp]%orb_false_elim.
  change (PyStr.contains "/" p) with (PyStr.contains sep p).
  change (Ascii.eqb c "/") with (Ascii.eqb c sep). by rewrite Hp, Hc.
Qed.

Lemma spec_basename_dir s b :
  PyStr.contains sep b = false -> spec_basename (s +:+ String sep b) = b.
Proof.
  intros Hb. induction s as [|c s IH].
  - rewrite str_app_nil_l. cbn [spec_basename].
    change (PyStr.contains "/" b) with (PyStr.contains sep b). by rewrite Hb.
  - rewrite str_app_cons. cbn [spec_basename].
    change (PyStr.contains "/" (s +:+ String sep b))
      with (PyStr.contains sep (s +:+ String sep b)).
    rewrite contains_app. cbn [PyStr.contains].
    rewrite Ascii.eqb_refl, orb_true_r. exact IH.
Qed.

(** [os.path.basename] computes the basename of these words. *)
Lemma basename_is_spec_basename p : posixpath.basename p = spec_basename p.
Proof.
  destruct (basename_cases p) as [[Hp ->]|[s E]].
  - by rewrite spec_basename_no_dir.
  - rewrite E at 2. rewrite spec_basename_dir; [done|].
    apply basename_sep_free.
Qed.

Lemma before_last_dot_no_dot s :
  PyStr.contains dot s = false -> before_last_dot s = s.
Proof.
  induction s as [|c s IH]; [done|]. cbn [PyStr.contains before_last_dot].
  intros [Hc Hs]%orb_false_elim.
  change (Ascii.eqb c ".") with (Ascii.eqb c dot). rewrite Hc. cbn [andb].
  by rewrite IH.
Qed.

Lemma before_last_dot_app stem e :
  PyStr.contains dot e = false ->
  before_last_dot (stem +:+ String dot e) = stem.
Proof.
  intros He. induction stem as [|c stem IH].
  - rewrite str_app_nil_l. cbn [before_last_dot].
    change (PyStr.contains "." e) with (PyStr.contains dot e).
    by rewrite He.
  - rewrite str_app_cons. cbn [before_last_dot].
    change (PyStr.contains "." (stem +:+ String dot e))
      with (PyStr.contains dot (stem +:+ String dot e)).
    rewrite contains_app. cbn [PyStr.contains].
    rewrite Ascii.eqb_refl, orb_true_r, andb_false_r. by rewrite IH.
Qed.

Lemma spec_without_extension_no_dot s :
  PyStr.contains dot s = false -> spec_without_extension s = s.
Proof.
  destruct s as [|c s]; [done|]. intros H.
  pose proof H as [Hc _]%orb_false_elim.
  cbn [spec_without_extension].
  change (Ascii.eqb c ".") with (Ascii.eqb c dot). rewrite Hc.
  by apply before_last_dot_no_dot.
Qed.

Lemma spec_without_extension_last_dot stem e :
  PyStr.contains dot e = false ->
  spec_without_extension (stem +:+ String dot e)
  = if only_char dot stem then stem +:+ String dot e else stem.
Proof.
  intros He. induction stem as [|c stem IH].
  - rewrite str_app_nil_l. cbn [spec_without_extension only_char].
    rewrite Ascii.eqb_refl. by rewrite spec_without_extension_no_dot.
  - rewrite str_app_cons. cbn [spec_without_extension only_char].
    change (Ascii.eqb c ".") with (Ascii.eqb c dot).
    destruct (Ascii.eqb c dot) eqn:Hc; cbn [andb].
    + rewrite IH. by destruct (only_char dot stem).
    + rewrite <- str_app_cons. by apply before_last_dot_app.
Qed.

(** On a name without separator, [os.path.splitext] cuts off the
    extension of these words. *)
Lemma splitext_is_spec_without_extension b :
  PyStr.contains sep b = false ->
  fst (posixpath.splitext b) = spec_without_extension b.
Proof.
  intros Hsep. destruct (PyStr.contains dot b) eqn:Hdot.
  - destruct (contains_last _ _ Hdot) as (stem & e & -> & He).
    rewrite contains_app in Hsep. apply orb_false_elim in Hsep as [Hs1 Hs2].
    cbn [PyStr.contains] in Hs2. apply orb_false_elim in Hs2 as [_ Hs2].
    rewrite splitext_last_dot, spec_without_extension_last_dot by done.
    by destruct (only_char dot stem).
  - by rewrite splitext_no_dot, spec_without_extension_no_dot.
Qed.

End SpecNames.

(** * The export path *)

Section ExportPath.

Implicit Types (p stem ext X : string).

Local Abbreviation sep := posixpath.sep.
Local Abbreviation dot := posixpath.extsep.

Lemma stem_sep_free p :
  PyStr.contains sep (fst (posixpath.splitext (posixpath.basename p))) = false.
Proof.
  pose proof (basename_sep_free p) as H.
  rewrite <- (splitext_concat (posixpath.basename p)), contains_app in H.
  by apply orb_false_elim in H as [? _].
Qed.

Lemma glb_plain stem :
  PyStr.contains sep stem = false -> plain_component (stem +:+ ".glb").
Proof.
  intros H. split; [by rewrite contains_app, H|].
  repeat split; intros E; apply (f_equal String.length) in E;
    rewrite str_length_app in E; simpl in E; lia.
Qed.

(** Lines 26 to 30 of the source come down to one concatenation:
    [join] of one argument returns it, and [normpath] finds nothing
    to normalise. *)
Lemma export_path_eq p :
  export_path p
  = export_dir +:+ "/"
    +:+ fst (posixpath.splitext (posixpath.basename p)) +:+ ".glb".
Proof.
  unfold export_path. rewrite join_nothing.
  rewrite normpath_export by (apply glb_plain, stem_sep_free).
  unfold export_dir. by rewrite !str_app_cons, !str_app_nil_l.
Qed.

Lemma export_path_join p :
  export_path p
  = posixpath.join export_dir
      [fst (posixpath.splitext (posixpath.basename p)) +:+ ".glb"].
Proof.
  rewrite join_export_dir.
  - apply export_path_eq.
  - apply glb_plain, stem_sep_free.
Qed.

(** The exported file is named as the words of the specification have it. *)
Lemma export_path_spec p :
  export_path p = export_dir +:+ "/" +:+ spec_glb_name p.
Proof.
  rewrite export_path_eq. unfold spec_glb_name.
  rewrite <- basename_is_spec_basename.
  by rewrite splitext_is_spec_without_extension by apply basename_sep_free.
Qed.

Lemma spec_glb_name_plain p : plain_component (spec_glb_name p).
Proof.
  unfold spec_glb_name. rewrite <- basename_is_spec_basename.
  rewrite <- splitext_is_spec_without_extension by apply basename_sep_free.
  apply glb_plain, stem_sep_free.
Qed.

End ExportPath.

(** * [execute] *)

Section Execute.

Implicit Types (s : Host).

Lemma truthy_nonempty (p : string) : p <> "" -> PyStr.truthy p = true.
Proof. intros H. unfold PyStr.truthy. by apply String.eqb_neq in H as ->. Qed.

Lemma execute_with_unsaved exporter s :
  data_filepath s = "" ->
  execute_with exporter s
  = (with_host_log
       (fun l => l ++ [Ev_report [WARNING] "Please save the .blend file first."])
       s,
     inr [CANCELLED]).
Proof.
  intros H. unfold execute_with, mbind, M_bind, bind, data_filepath_get.
  by rewrite H.
Qed.

(** With a saved file the export call is made and logged; what follows
    depends on the exporter's answer. *)
Lemma execute_with_saved exporter s :
  data_filepath s <> "" ->
  execute_with exporter s
  = match exporter (gltf_call (export_path (data_filepath s))) s with
    | inr _ =>
        (with_host_log
           (fun l => (l ++ [Ev_export_scene_gltf
                              (gltf_call (export_path (data_filepath s)))])
                     ++ [Ev_report [INFO]
                           ("Exported to " +:+ export_path (data_filepath s))])
           s,
         inr [FINISHED])
    | inl e =>
        (with_host_log
           (fun l => l ++ [Ev_export_scene_gltf
                             (gltf_call (export_path (data_filepath s)))])
           s,
         inl e)
    end.
Proof.
  intros H.
  unfold execute_with, mbind, M_bind, bind, data_filepath_get,
    ops_export_scene_gltf.
  rewrite truthy_nonempty by done. cbn [negb].
  change {| filepath := _; export_format := _; export_apply := _ |}
    with (gltf_call (export_path (data_filepath s))).
  by destruct (exporter _ s).
Qed.

Lemma execute_unsaved s :
  data_filepath s = "" ->
  execute s
  = (with_host_log
       (fun l => l ++ [Ev_report [WARNING] "Please save the .blend file first."])
       s,
     inr [CANCELLED]).
Proof. apply execute_with_unsaved. Qed.

Lemma execute_saved s :
  data_filepath s <> "" ->
  execute s
  = (with_host_log
       (fun l => (l ++ [Ev_export_scene_gltf
                          (gltf_call (export_path (data_filepath s)))])
                 ++ [Ev_report [INFO]
                       ("Exported to " +:+ export_path (data_filepath s))])
       s,
     inr [FINISHED]).
Proof.
  intros H. unfold execute. by rewrite execute_with_saved.
Qed.

Lemma execute_saved_log s :
  data_filepath s <> "" ->
  host_log (fst (execute s))
  = host_log s ++ export_events (export_path (data_filepath s)).
Proof.
  intros H. rewrite execute_saved by done. simpl.
  by rewrite <- List.app_assoc.
Qed.

Lemma export_calls_app (l1 l2 : list HostEvent) :
  export_calls (l1 ++ l2) = export_calls l1 ++ export_calls l2.
Proof. apply flat_map_app. Qed.

(** C2: with an empty [bpy.data.filepath] (the file was never
    saved), [execute] reports the warning that asks to save the file,
    returns [{"CANCELLED"}] and makes no export call. *)
Theorem execute_unsaved_warns_and_cancels s :
  data_filepath s = "" ->
  snd (execute s) = inr [CANCELLED]
  /\ host_log (fst (execute s))
     = host_log s ++ [Ev_report [WARNING] "Please save the .blend file first."]
  /\ export_calls (host_log (fst (execute s))) = export_calls (host_log s).
Proof.
  intros H. rewrite execute_unsaved by done. simpl.
  repeat split. rewrite export_calls_app. simpl. apply app_nil_r.
Qed.

Lemma execute_unsaved_warns_and_cancels_witness :
  data_filepath (host_with_file "") = ""
  /\ snd (execute (host_with_file "")) = inr [CANCELLED]
  /\ host_log (fst (execute (host_with_file "")))
     = [Ev_report [WARNING] "Please save the .blend file first."]
  /\ export_calls (host_log (fst (execute (host_with_file "")))) = [].
Proof.
  split; [reflexivity|].
  apply (execute_unsaved_warns_and_cancels (host_with_file "")).
  reflexivity.
Defined.

(** Whatever the exporter answers, [execute] on a saved file has made
    one export call, for the export path. *)
Lemma export_call_made exporter s :
  data_filepath s <> "" ->
  export_calls (host_log (fst (execute_with exporter s)))
  = export_calls (host_log s) ++ [gltf_call (export_path (data_filepath s))].
Proof.
  intros H. rewrite execute_with_saved by done.
  destruct (exporter _ s); cbn [fst host_log with_host_log];
    rewrite !export_calls_app; simpl; by rewrite ?app_nil_r.
Qed.

Lemma execute_with_filepath exporter s :
  data_filepath (fst (execute_with exporter s)) = data_filepath s.
Proof.
  destruct (decide (data_filepath s = "")) as [E|E].
  - by rewrite execute_with_unsaved.
  - rewrite execute_with_saved by done. by destruct (exporter _ s).
Qed.

(** C3, as the code has it: with a non-empty [bpy.data.filepath],
    [execute] calls the host's exporter exactly once, with the computed
    export path, [export_format="GLB"] and [export_apply=True],
    whatever the exporter answers.  If the call returns, [execute]
    then reports the success and returns [{"FINISHED"}]; if the call
    raises, the exception leaves [execute], which reports nothing and
    calls nothing again. *)
Theorem execute_saved_exports_once exporter s :
  data_filepath s <> "" ->
  export_calls (host_log (fst (execute_with exporter s)))
  = export_calls (host_log s)
    ++ [ {| filepath := export_path (data_filepath s);
            export_format := "GLB";
            export_apply := true |} ]
  /\ (forall r,
        exporter {| filepath := export_path (data_filepath s);
                    export_format := "GLB";
                    export_apply := true |} s = inr r ->
        snd (execute_with exporter s) = inr [FINISHED]
        /\ host_log (fst (execute_with exporter s))
           = host_log s
             ++ [ Ev_export_scene_gltf
                    {| filepath := export_path (data_filepath s);
                       export_format := "GLB";
                       export_apply := true |};
                  Ev_report [INFO]
                    ("Exported to " +:+ export_path (data_filepath s)) ])
  /\ (forall e,
        exporter {| filepath := export_path (data_filepath s);
                    export_format := "GLB";
                    export_apply := true |} s = inl e ->
        snd (execute_with exporter s) = inl e
        /\ host_log (fst (execute_with exporter s))
           = host_log s
             ++ [ Ev_export_scene_gltf
                    {| filepath := export_path (data_filepath s);
                       export_format := "GLB";
                       export_apply := true |} ])
  /\ snd (execute s) = inr [FINISHED].
Proof.
  intros H. split; [by apply export_call_made|].
  change {| filepath := _; export_format := _; export_apply := _ |}
    with (gltf_call (export_path (data_filepath s))).
  split; [|split].
  - intros r Hr. rewrite execute_with_saved, Hr by done.
    split; [done|]. simpl. by rewrite <- List.app_assoc.
  - intros e He. by rewrite execute_with_saved, He.
  - by rewrite execute_saved.
Qed.

Lemma execute_saved_exports_once_witness :
  data_filepath (host_with_file "/home/casey/scenes/level1.blend") <> ""
  /\ export_calls
       (host_log (fst (execute_with exporter_returns
                         (host_with_file "/home/casey/scenes/level1.blend"))))
     = [ {| filepath := "/home/casey/dream/static/level1.glb";
            export_format := "GLB";
            export_apply := true |} ]
  /\ snd (execute_with exporter_returns
            (host_with_file "/home/casey/scenes/level1.blend"))
     = inr [FINISHED]
  /\ host_log (fst (execute_with exporter_returns
                      (host_with_file "/home/casey/scenes/level1.blend")))
     = [ Ev_export_scene_gltf
           {| filepath := "/home/casey/dream/static/level1.glb";
              export_format := "GLB";
              export_apply := true |};
         Ev_report [INFO] "Exported to /home/casey/dream/static/level1.glb" ].
Proof.
  split; [discriminate|].
  destruct (execute_saved_exports_once exporter_returns
              (host_with_file "/home/casey/scenes/level1.blend"))
    as (Hcall & Hret & _ & _); [discriminate|].
  split; [exact Hcall|]. exact (Hret [FINISHED] eq_refl).
Defined.

(** C3, as stated, fails when the exporter raises: the export call
    has been made, but [execute] ends with the exception, reports no
    success and does not return [{"FINISHED"}]. *)
Lemma raising_exporter_leaves_no_report :
  data_filepath (host_with_file "/home/casey/scenes/level1.blend") <> ""
  /\ snd (execute_with exporter_raises
            (host_with_file "/home/casey/scenes/level1.blend"))
     = inl RuntimeError
  /\ snd (execute_with exporter_raises
            (host_with_file "/home/casey/scenes/level1.blend"))
     <> inr [FINISHED]
  /\ host_log (fst (execute_with exporter_raises
                      (host_with_file "/home/casey/scenes/level1.blend")))
     = [ Ev_export_scene_gltf
           {| filepath := "/home/casey/dream/static/level1.glb";
              export_format := "GLB";
              export_apply := true |} ].
Proof.
  split; [discriminate|]. split; [reflexivity|].
  split; [discriminate | reflexivity].
Qed.


End Execute.

(** * Where the export goes *)

Section ExportTarget.

Implicit Types (s : Host) (p stem e X : string).

Local Abbreviation sep := posixpath.sep.
Local Abbreviation dot := posixpath.extsep.

Lemma only_char_nonempty_dot_free X :
  X <> "" -> PyStr.contains dot X = false -> only_char dot X = false.
Proof.
  destruct X as [|a X]; [done|]. simpl.
  intros _ [Ha _]%orb_false_elim. by rewrite Ha.
Qed.

Lemma basename_nonempty p : posixpath.basename p <> "" -> p <> "".
Proof. by intros H ->. Qed.

(** The extension [splitext] finds in a basename: nothing, or the
    part from the last dot on. *)
Lemma splitext_basename_cases p :
  let b := posixpath.basename p in
  (PyStr.contains dot b = false /\ posixpath.splitext b = (b, ""))
  \/ (exists stem e,
        b = stem +:+ String dot e /\ PyStr.contains dot e = false
        /\ posixpath.splitext b
           = if only_char dot stem then (b, "") else (stem, String dot e)).
Proof.
  intros b. pose proof (basename_sep_free p) as Hsep. fold b in Hsep.
  destruct (PyStr.contains dot b) eqn:Hdot.
  - right. destruct (contains_last _ _ Hdot) as (stem & e & E & He).
    exists stem, e. split; [done|]. split; [done|].
    rewrite E in Hsep |- *. rewrite contains_app in Hsep.
    apply orb_false_elim in Hsep as [Hs1 Hs2].
    cbn [PyStr.contains] in Hs2. apply orb_false_elim in Hs2 as [_ Hs2].
    by apply splitext_last_dot.
  - left. split; [done|]. by apply splitext_no_dot.
Qed.



(** C6: the export path is a function of the basename alone: two
    hosts whose non-empty source paths have the same basename export
    to the same path, whatever the directories. *)
Theorem export_path_depends_on_basename_only s1 s2 :
  data_filepath s1 <> "" -> data_filepath s2 <> "" ->
  posixpath.basename (data_filepath s1) = posixpath.basename (data_filepath s2) ->
  export_path (data_filepath s1) = export_path (data_filepath s2)
  /\ exists path,
       host_log (fst (execute s1)) = host_log s1 ++ export_events path
       /\ host_log (fst (execute s2)) = host_log s2 ++ export_events path.
Proof.
  intros H1 H2 Hb.
  assert (export_path (data_filepath s1) = export_path (data_filepath s2)) as E
    by (unfold export_path; by rewrite Hb).
  split; [done|]. exists (export_path (data_filepath s1)).
  rewrite !execute_saved_log by done. by rewrite E.
Qed.

Lemma export_path_depends_on_basename_only_witness :
  data_filepath (host_with_file "/home/casey/a/scene.blend") <> ""
  /\ data_filepath (host_with_file "/tmp/b/c/scene.blend") <> ""
  /\ posixpath.basename (data_filepath (host_with_file "/home/casey/a/scene.blend"))
     = posixpath.basename (data_filepath (host_with_file "/tmp/b/c/scene.blend"))
  /\ export_path (data_filepath (host_with_file "/home/casey/a/scene.blend"))
     = export_path (data_filepath (host_with_file "/tmp/b/c/scene.blend"))
  /\ exists path,
       host_log (fst (execute (host_with_file "/home/casey/a/scene.blend")))
       = host_log (host_with_file "/home/casey/a/scene.blend")
         ++ export_events path
       /\ host_log (fst (execute (host_with_file "/tmp/b/c/scene.blend")))
          = host_log (host_with_file "/tmp/b/c/scene.blend")
            ++ export_events path.
Proof.
  split; [discriminate|]. split; [discriminate|]. split; [reflexivity|].
  apply (export_path_depends_on_basename_only
           (host_with_file "/home/casey/a/scene.blend")
           (host_with_file "/tmp/b/c/scene.blend"));
    [discriminate | discriminate | reflexivity].
Defined.

(** C1, as the code has it: a saved file whose basename is
    [X.blend], with a non-empty [X] that holds no separator and no
    dot, is exported to the fixed directory joined with [X.glb]. *)
Theorem blend_file_exports_to_glb s X :
  PyStr.contains sep X = false -> PyStr.contains dot X = false ->
  X <> "" ->
  posixpath.basename (data_filepath s) = X +:+ ".blend" ->
  export_path (data_filepath s) = posixpath.join export_dir [X +:+ ".glb"]
  /\ host_log (fst (execute s))
     = host_log s ++ export_events (posixpath.join export_dir [X +:+ ".glb"]).
Proof.
  intros Hsep Hdot HX Hb.
  assert (data_filepath s <> "") as Hp.
  { apply basename_nonempty. rewrite Hb. by destruct X. }
  assert (export_path (data_filepath s)
          = posixpath.join export_dir [X +:+ ".glb"]) as E.
  { rewrite export_path_join, Hb.
    change (X +:+ ".blend") with (X +:+ String dot "blend").
    rewrite splitext_last_dot by done.
    by rewrite only_char_nonempty_dot_free. }
  split; [done|]. rewrite execute_saved_log by done. by rewrite E.
Qed.

Lemma blend_file_exports_to_glb_witness :
  PyStr.contains sep "castle" = false
  /\ PyStr.contains dot "castle" = false
  /\ "castle" <> ""
  /\ posixpath.basename (data_filepath (host_with_file "/art/castle.blend"))
     = "castle" +:+ ".blend"
  /\ export_path (data_filepath (host_with_file "/art/castle.blend"))
     = posixpath.join export_dir ["castle" +:+ ".glb"]
  /\ host_log (fst (execute (host_with_file "/art/castle.blend")))
     = host_log (host_with_file "/art/castle.blend")
       ++ export_events (posixpath.join export_dir ["castle" +:+ ".glb"]).
Proof.
  split; [reflexivity|]. split; [reflexivity|]. split; [discriminate|].
  split; [reflexivity|].
  apply (blend_file_exports_to_glb (host_with_file "/art/castle.blend") "castle");
    [reflexivity | reflexivity | discriminate | reflexivity].
Defined.

(** C1, as stated, fails for the empty [X]: the file [/tmp/.blend]
    has the basename [X.blend] with [X] empty, free of separators and
    dots, and is exported to [.blend.glb], not to [.glb]. *)
Lemma dot_blend_file_keeps_its_name :
  PyStr.contains sep "" = false
  /\ PyStr.contains dot "" = false
  /\ posixpath.basename (data_filepath (host_with_file "/tmp/.blend"))
     = "" +:+ ".blend"
  /\ export_path (data_filepath (host_with_file "/tmp/.blend"))
     = "/home/casey/dream/static/.blend.glb"
  /\ posixpath.join export_dir ["" +:+ ".glb"]
     = "/home/casey/dream/static/.glb"
  /\ export_path (data_filepath (host_with_file "/tmp/.blend"))
     <> posixpath.join export_dir ["" +:+ ".glb"]
  /\ host_log (fst (execute (host_with_file "/tmp/.blend")))
     <> host_log (host_with_file "/tmp/.blend")
        ++ export_events (posixpath.join export_dir ["" +:+ ".glb"]).
Proof.
  repeat split; try reflexivity; vm_compute; discriminate.
Qed.

(** C8: only the final extension of the basename gives way to
    [.glb] in the path of the export call [execute] makes.  A stem
    keeps its inner dots; a basename without a dot gets [.glb]
    appended; a basename that is a dot followed by a dot-free name has
    no extension and gets [.glb] appended as well.  The three names of
    the claim follow. *)
Theorem only_final_extension_is_replaced :
  (forall exporter s stem e,
      spec_basename (data_filepath s) = stem +:+ String dot e ->
      PyStr.contains dot e = false -> only_char dot stem = false ->
      export_calls (host_log (fst (execute_with exporter s)))
      = export_calls (host_log s)
        ++ [gltf_call (posixpath.join export_dir [stem +:+ ".glb"])])
  /\ (forall exporter s,
        data_filepath s <> "" ->
        PyStr.contains dot (spec_basename (data_filepath s)) = false ->
        export_calls (host_log (fst (execute_with exporter s)))
        = export_calls (host_log s)
          ++ [gltf_call
                (posixpath.join export_dir
                   [spec_basename (data_filepath s) +:+ ".glb"])])
  /\ (forall exporter s e,
        spec_basename (data_filepath s) = String dot e ->
        PyStr.contains dot e = false ->
        export_calls (host_log (fst (execute_with exporter s)))
        = export_calls (host_log s)
          ++ [gltf_call
                (posixpath.join export_dir
                   [spec_basename (data_filepath s) +:+ ".glb"])])
  /\ (forall exporter,
        export_calls
          (host_log (fst (execute_with exporter (host_with_file "a.b.blend"))))
        = [gltf_call "/home/casey/dream/static/a.b.glb"]
        /\ export_calls
             (host_log (fst (execute_with exporter (host_with_file "foo"))))
           = [gltf_call "/home/casey/dream/static/foo.glb"]
        /\ export_calls
             (host_log (fst (execute_with exporter (host_with_file ".blend"))))
           = [gltf_call "/home/casey/dream/static/.blend.glb"])
  /\ host_log (fst (execute (host_with_file "a.b.blend")))
     = export_events "/home/casey/dream/static/a.b.glb"
  /\ host_log (fst (execute (host_with_file "foo")))
     = export_events "/home/casey/dream/static/foo.glb"
  /\ host_log (fst (execute (host_with_file ".blend")))
     = export_events "/home/casey/dream/static/.blend.glb".
Proof.
  assert (forall s name,
             data_filepath s <> "" ->
             spec_without_extension (spec_basename (data_filepath s)) = name ->
             forall exporter,
               export_calls (host_log (fst (execute_with exporter s)))
               = export_calls (host_log s)
                 ++ [gltf_call (posixpath.join export_dir [name +:+ ".glb"])])
    as Hcall.
  { intros s name H <- exporter. rewrite export_call_made by done.
    fold (spec_glb_name (data_filepath s)).
    rewrite join_export_dir by apply spec_glb_name_plain.
    by rewrite export_path_spec. }
  assert (forall s, spec_basename (data_filepath s) <> "" ->
                    data_filepath s <> "") as Hne
    by (by intros s H E; rewrite E in H).
  split; [|split; [|split; [|split]]].
  - intros exporter s stem e Hb He Hstem. apply Hcall.
    + apply Hne. rewrite Hb. by destruct stem.
    + rewrite Hb, spec_without_extension_last_dot by done. by rewrite Hstem.
  - intros exporter s H Hd. apply Hcall; [done|].
    by apply spec_without_extension_no_dot.
  - intros exporter s e Hb He. apply Hcall.
    + apply Hne. by rewrite Hb.
    + rewrite Hb. change (String dot e) with ("" +:+ String dot e).
      by rewrite spec_without_extension_last_dot.
  - intros exporter. split; [|split].
    + exact (Hcall (host_with_file "a.b.blend") "a.b"
               ltac:(discriminate) eq_refl exporter).
    + exact (Hcall (host_with_file "foo") "foo"
               ltac:(discriminate) eq_refl exporter).
    + exact (Hcall (host_with_file ".blend") ".blend"
               ltac:(discriminate) eq_refl exporter).
  - repeat split; reflexivity.
Qed.

Lemma only_final_extension_is_replaced_witness :
  export_calls
    (host_log (fst (execute_with exporter_raises
                      (host_with_file "/proj/ship.final.v2.blend"))))
  = [gltf_call "/home/casey/dream/static/ship.final.v2.glb"]
  /\ export_calls
       (host_log (fst (execute_with exporter_returns
                         (host_with_file "/proj/README"))))
     = [gltf_call "/home/casey/dream/static/README.glb"]
  /\ export_calls
       (host_log (fst (execute_with exporter_returns
                         (host_with_file "/proj/.hidden"))))
     = [gltf_call "/home/casey/dream/static/.hidden.glb"].
Proof.
  destruct only_final_extension_is_replaced as (H1 & H2 & H3 & _).
  split; [|split].
  - apply (H1 exporter_raises (host_with_file "/proj/ship.final.v2.blend")
              "ship.final.v2" "blend"); reflexivity.
  - apply (H2 exporter_returns (host_with_file "/proj/README"));
      [discriminate | reflexivity].
  - apply (H3 exporter_returns (host_with_file "/proj/.hidden") "hidden");
      reflexivity.
Defined.

End ExportTarget.

(** * [register] and [unregister] *)

Section Registry.

Implicit Types (s : Host) (l : list FuncRef) (x y : FuncRef).

(** ** [list.remove] *)




Lemma list_remove_sublist x l l' y :
  list_remove x l = Some l' -> y ∈ l' -> y ∈ l.
Proof.
  revert l'. induction l as [|z l IH]; intros l'; [done|]. simpl.
  destruct (decide (z = x)).
  - intros [= <-] H. by apply elem_of_cons; right.
  - destruct (list_remove x l) as [r|]; [|done].
    intros [= <-] [->|H]%elem_of_cons; apply elem_of_cons; eauto.
Qed.


Lemma filter_eq_absent x l :
  x ∉ l <-> length (filter (fun f => f = x) l) = 0%nat.
Proof.
  induction l as [|z l IH]; [by split; [|intros _ ?%elem_of_nil]|].
  rewrite not_elem_of_cons. destruct (decide (z = x)) as [->|Hz].
  - rewrite filter_cons_True by done. simpl. split; [by intros []|lia].
  - rewrite filter_cons_False by done. rewrite <- IH.
    split; [by intros [_ ?] | intros ?; split; [by intros -> | done]].
Qed.

(** ** The two entry points, unfolded *)


Lemma register_fresh s :
  QuickExportGLTFOperator ∉ classes s ->
  register s
  = (with_draw_funcs (fun l => l ++ [draw_export_button_ref])
       (with_classes (fun cs => cs ∪ {[QuickExportGLTFOperator]}) s),
     inr tt).
Proof.
  intros H.
  unfold register, register_body, run_calls, mbind, M_bind, bind, do_call,
    utils_register_class.
  by rewrite decide_False.
Qed.

Lemma register_again s :
  QuickExportGLTFOperator ∈ classes s -> register s = (s, inl ValueError).
Proof.
  intros H.
  unfold register, register_body, run_calls, mbind, M_bind, bind, do_call,
    utils_register_class.
  by rewrite decide_True.
Qed.

Lemma unregister_loaded s :
  QuickExportGLTFOperator ∈ classes s ->
  unregister s
  = (with_classes (fun cs => cs ∖ {[QuickExportGLTFOperator]})
       (with_draw_funcs
          (fun l => match list_remove draw_export_button_ref l with
                    | Some l' => l'
                    | None => l
                    end) s),
     inr tt).
Proof.
  intros H.
  unfold unregister, unregister_body, run_calls, mbind, M_bind, bind,
    do_call, utils_unregister_class, SCENE_PT_scene_remove, modify.
  simpl. by rewrite decide_True.
Qed.

Lemma unregister_not_loaded s :
  QuickExportGLTFOperator ∉ classes s ->
  unregister s
  = (with_draw_funcs
       (fun l => match list_remove draw_export_button_ref l with
                 | Some l' => l'
                 | None => l
                 end) s,
     inl RuntimeError).
Proof.
  intros H.
  unfold unregister, unregister_body, run_calls, mbind, M_bind, bind,
    do_call, utils_unregister_class, SCENE_PT_scene_remove, modify.
  simpl. by rewrite decide_False.
Qed.


(** [register] returns unless the host refuses the class. *)
Lemma register_returns s :
  snd (register s) = inr tt <-> QuickExportGLTFOperator ∉ classes s.
Proof.
  destruct (decide (QuickExportGLTFOperator ∈ classes s)) as [Hc|Hc].
  - rewrite register_again by done. simpl. split; [discriminate | done].
  - rewrite register_fresh by done. simpl. done.
Qed.




(** The callback must not be listed either: where it is, before
    another callback, [list.remove] takes away that first occurrence,
    not the appended one, and the callbacks end up in another
    order. *)
Remark listed_callback_is_not_restored :
  snd (register host_with_listed_callback) = inr tt
  /\ snd (unregister (fst (register host_with_listed_callback))) = inr tt
  /\ SCENE_PT_scene_draw_funcs host_with_listed_callback
     = [draw_export_button_ref; foreign_draw]
  /\ SCENE_PT_scene_draw_funcs
       (fst (unregister (fst (register host_with_listed_callback))))
     = [foreign_draw; draw_export_button_ref]
  /\ fst (unregister (fst (register host_with_listed_callback)))
     <> host_with_listed_callback.
Proof.
  split; [reflexivity|]. split; [vm_compute; reflexivity|].
  split; [reflexivity|]. split; [vm_compute; reflexivity|].
  intros E. apply (f_equal SCENE_PT_scene_draw_funcs) in E.
  vm_compute in E. discriminate.
Qed.

(** ** The button *)

Lemma panel_layout_appended others s :
  QuickExportGLTFOperator ∉ classes s ->
  panel_layout others (fst (register s))
  = draw_export_button (panel_layout others s).
Proof.
  intros H. rewrite register_fresh by done.
  unfold panel_layout. simpl. rewrite fold_left_app. simpl.
  unfold call_draw at 1. by rewrite decide_True.
Qed.

(** C7, as the code has it: on a host where the operator class is not
    registered yet, [register] returns and has added exactly one
    button to the panel: it has appended one draw callback,
    [draw_export_button], which puts exactly one item on the layout, a
    button for the operator with the [bl_idname] of
    [QuickExportGLTFOperator], [export_scene.quick_gltf], the one
    class that [register] has registered. *)
Theorem register_adds_one_button others s :
  QuickExportGLTFOperator ∉ classes s ->
  snd (register s) = inr tt
  /\ SCENE_PT_scene_draw_funcs (fst (register s))
     = SCENE_PT_scene_draw_funcs s ++ [draw_export_button_ref]
  /\ panel_layout others (fst (register s))
     = panel_layout others s
       ++ [OperatorButton (bl_idname QuickExportGLTFOperator) "EXPORT"]
  /\ bl_idname QuickExportGLTFOperator = "export_scene.quick_gltf"
  /\ (QuickExportGLTFOperator ∈ classes (fst (register s)))
  /\ (forall c, c ∈ classes (fst (register s)) ->
                c ∈ classes s \/ c = QuickExportGLTFOperator).
Proof.
  intros H. split; [by rewrite register_fresh|].
  split; [by rewrite register_fresh|].
  split; [by rewrite panel_layout_appended|].
  split; [reflexivity|].
  rewrite register_fresh by done. simpl. split; set_solver.
Qed.

Lemma register_adds_one_button_witness :
  (QuickExportGLTFOperator ∉ classes (host_with_file "/art/castle.blend"))
  /\ snd (register (host_with_file "/art/castle.blend")) = inr tt
  /\ SCENE_PT_scene_draw_funcs (fst (register (host_with_file "/art/castle.blend")))
     = [draw_export_button_ref]
  /\ panel_layout (fun _ layout => layout)
       (fst (register (host_with_file "/art/castle.blend")))
     = [OperatorButton "export_scene.quick_gltf" "EXPORT"]
  /\ bl_idname QuickExportGLTFOperator = "export_scene.quick_gltf"
  /\ (QuickExportGLTFOperator
      ∈ classes (fst (register (host_with_file "/art/castle.blend"))))
  /\ (forall c, c ∈ classes (fst (register (host_with_file "/art/castle.blend"))) ->
                c ∈ classes (host_with_file "/art/castle.blend")
                \/ c = QuickExportGLTFOperator).
Proof.
  split; [apply not_elem_of_empty|].
  apply (register_adds_one_button (fun _ layout => layout)
           (host_with_file "/art/castle.blend")).
  apply not_elem_of_empty.
Defined.

(** C7, as stated, fails on a host that has the add-on loaded, the
    state one call of [register] leaves: a further [register] is
    refused with [ValueError] and adds no button, neither to the
    panel's list of callbacks nor to the drawn panel. *)
Lemma refused_register_adds_no_button :
  host_with_addon = fst (register (host_with_file ""))
  /\ snd (register host_with_addon) = inl ValueError
  /\ SCENE_PT_scene_draw_funcs (fst (register host_with_addon))
     = SCENE_PT_scene_draw_funcs host_with_addon
  /\ (forall others,
        panel_layout others (fst (register host_with_addon))
        = panel_layout others host_with_addon).
Proof.
  assert (register host_with_addon = (host_with_addon, inl ValueError)) as E
    by (vm_compute; reflexivity).
  rewrite E. repeat split; reflexivity.
Qed.

(** ** The states inside [register] and [unregister] *)

Lemma run_one_call c s :
  run_calls [c] s = (fst (do_call c s),
                     match snd (do_call c s) with
                     | inr _ => inr tt
                     | inl e => inl e
                     end).
Proof.
  unfold run_calls, mbind, M_bind, bind.
  by destruct (do_call c s) as [s1 [e|[]]].
Qed.

(** Inside a body of two calls there is one state: the one the first
    call leaves when it returns. *)
Lemma inside_two_calls c1 c2 s s' :
  inside [c1; c2] s s' <-> do_call c1 s = (s', inr tt).
Proof.
  split.
  - intros (made & rest & E & Hmade & Hrest & Hrun).
    destruct made as [|x [|y made]]; [done| |].
    + injection E as <- <-. rewrite run_one_call in Hrun.
      destruct (do_call c1 s) as [s1 [e|[]]]; simpl in Hrun; congruence.
    + injection E as _ _ E. symmetry in E.
      apply app_eq_nil in E as [_ ->]. done.
  - intros H. exists [c1], [c2]. repeat split; [done..|].
    rewrite run_one_call. by rewrite H.
Qed.

(** Inside [register] the class is registered and the callback not
    yet appended. *)
Lemma inside_register s s' :
  inside register_body s s'
  <-> (QuickExportGLTFOperator ∉ classes s)
      /\ s' = with_classes (fun cs => cs ∪ {[QuickExportGLTFOperator]}) s.
Proof.
  unfold register_body. rewrite inside_two_calls.
  unfold do_call, utils_register_class, raise, modify.
  destruct (decide _) as [Hc|Hc]; split.
  - intros [=].
  - by intros [? _].
  - by intros [= <-].
  - by intros [_ ->].
Qed.

(** Inside [unregister] one occurrence of the callback is removed and
    the class is registered as it was at the call. *)
Lemma inside_unregister s s' :
  inside unregister_body s s'
  <-> s' = with_draw_funcs
             (fun l => match list_remove draw_export_button_ref l with
                       | Some l' => l'
                       | None => l
                       end) s.
Proof.
  unfold unregister_body. rewrite inside_two_calls.
  unfold do_call, SCENE_PT_scene_remove, modify.
  split; [by intros [= <-] | by intros ->].
Qed.

Lemma inside_register_button_implies_operator s s' :
  inside register_body s s' -> button_implies_operator s'.
Proof.
  intros [_ ->]%inside_register _. simpl.
  apply elem_of_union; right. by apply elem_of_singleton.
Qed.

Lemma inside_unregister_button_implies_operator s s' :
  button_implies_operator s ->
  inside unregister_body s s' -> button_implies_operator s'.
Proof.
  intros Hs ->%inside_unregister. unfold button_implies_operator. simpl.
  destruct (list_remove _ _) as [l'|] eqn:E; [|done].
  intros H. apply Hs. by eapply list_remove_sublist.
Qed.

(** C9, as the code has it: [unregister] undoes the calls of
    [register] in reverse order, the callback first and the class
    last.  So no state inside [register] has the button in the panel
    while the operator class is unregistered, and no state inside
    [unregister] has, unless the registry was in such a state already
    when [unregister] was called. *)
Theorem button_never_without_operator :
  (forall s, register s = run_calls register_body s)
  /\ (forall s, unregister s = run_calls unregister_body s)
  /\ unregister_body = rev (map undo_call register_body)
  /\ (forall s s',
        inside register_body s s' -> button_implies_operator s')
  /\ (forall s s',
        button_implies_operator s ->
        inside unregister_body s s' -> button_implies_operator s').
Proof.
  split; [reflexivity|]. split; [reflexivity|]. split; [reflexivity|]. split.
  - apply inside_register_button_implies_operator.
  - apply inside_unregister_button_implies_operator.
Qed.

Lemma button_never_without_operator_witness :
  button_implies_operator host_with_addon
  /\ (exists s', inside unregister_body host_with_addon s'
                 /\ button_implies_operator s')
  /\ (exists s', inside register_body (host_with_file "") s'
                 /\ button_implies_operator s').
Proof.
  destruct button_never_without_operator as (_ & _ & _ & Hreg & Hunreg).
  assert (button_implies_operator host_with_addon) as H0.
  { intros _. vm_compute. reflexivity. }
  split; [exact H0|]. split.
  - eexists. split; [by apply inside_unregister|].
    apply (Hunreg host_with_addon); [exact H0|]. by apply inside_unregister.
  - eexists.
    assert (inside register_body (host_with_file "")
              (with_classes (fun cs => cs ∪ {[QuickExportGLTFOperator]})
                 (host_with_file ""))) as Hin
      by (apply inside_register; split; [apply not_elem_of_empty | done]).
    split; [exact Hin|]. exact (Hreg _ _ Hin).
Defined.

(** C9, as stated, fails inside [unregister] on a host that can be
    reached: after the file has been executed three times as
    [__main__] and [unregister] has been called, the panel lists the
    callback of the two earlier executions and the class is
    unregistered; a further [unregister], which ends in
    [RuntimeError], passes through a state with the button in the
    panel and the operator class unregistered. *)
Lemma stale_button_inside_unregister :
  reachable host_after_reruns
  /\ classes host_after_reruns = ∅
  /\ SCENE_PT_scene_draw_funcs host_after_reruns
     = [draw_export_button_ref; draw_export_button_ref]
  /\ snd (unregister host_after_reruns) = inl RuntimeError
  /\ exists s',
       inside unregister_body host_after_reruns s'
       /\ (draw_export_button_ref ∈ SCENE_PT_scene_draw_funcs s')
       /\ (QuickExportGLTFOperator ∉ classes s')
       /\ ~ button_implies_operator s'.
Proof.
  split.
  { unfold host_after_reruns.
    apply reachable_unregister.
    do 3 apply reachable_run_file.
    apply reachable_start; [apply not_elem_of_empty | apply not_elem_of_nil]. }
  split; [vm_compute; reflexivity|]. split; [vm_compute; reflexivity|].
  split; [vm_compute; reflexivity|].
  assert (QuickExportGLTFOperator ∉ (∅ : gset OperatorClass)) as Hn
    by apply not_elem_of_empty.
  eexists. split; [by apply inside_unregister|].
  split; [vm_compute; apply list_elem_of_here|].
  split; [exact Hn|].
  intros H. apply Hn, H. vm_compute. apply list_elem_of_here.
Qed.

(** Were the two removals done in the order of [register], the class
    first, the state in between would offer the button of an
    operator that is gone. *)
Remark same_order_would_expose_button :
  exists s',
    inside (map undo_call register_body) host_with_addon s'
    /\ ~ button_implies_operator s'.
Proof.
  exists (fst (utils_unregister_class QuickExportGLTFOperator host_with_addon)).
  split.
  - apply inside_two_calls. vm_compute. reflexivity.
  - intros H.
    assert (QuickExportGLTFOperator ∈ (∅ : gset OperatorClass)) as H'.
    { apply H. vm_compute. apply list_elem_of_here. }
    by apply not_elem_of_empty in H'.
Qed.

(** ** The add-on over the life of the host *)

Lemma button_listed s :
  draw_export_button_ref ∈ SCENE_PT_scene_draw_funcs s
  <-> button_count s <> 0%nat.
Proof.
  unfold button_count.
  pose proof (filter_eq_absent draw_export_button_ref
                (SCENE_PT_scene_draw_funcs s)) as H.
  destruct (decide (draw_export_button_ref ∈ SCENE_PT_scene_draw_funcs s));
    tauto.
Qed.

Lemma execute_with_registry exporter s :
  classes (fst (execute_with exporter s)) = classes s
  /\ SCENE_PT_scene_draw_funcs (fst (execute_with exporter s))
     = SCENE_PT_scene_draw_funcs s.
Proof.
  destruct (decide (data_filepath s = "")) as [E|E].
  - by rewrite execute_with_unsaved.
  - rewrite execute_with_saved by done. by destruct (exporter _ s).
Qed.

Lemma run_file_main s :
  run_file "__main__" s
  = (with_draw_funcs (fun l => l ++ [draw_export_button_ref])
       (with_classes
          (fun cs => filter (fun c => bl_idname c
                                      <> bl_idname QuickExportGLTFOperator) cs
                     ∪ {[QuickExportGLTFOperator]}) s),
     inr tt).
Proof. reflexivity. Qed.

Lemma run_file_imported name s :
  name <> "__main__" -> run_file name s = (s, inr tt).
Proof.
  intros H. unfold run_file. by apply String.eqb_neq in H as ->.
Qed.

End Registry.

(** * Further properties of [execute] *)

Section ExecuteFurther.

Implicit Types (s : Host) (p stem name : string).

Local Abbreviation sep := posixpath.sep.


(** X1: whatever the source path, [execute] exports to a direct child
    of the export directory: the path of the export call is the
    directory, one separator and one component that holds no
    separator, is none of the empty name, [.] and [..], and ends in
    [.glb]. *)
Theorem export_lands_in_export_dir s :
  data_filepath s <> "" ->
  exists name,
    plain_component name
    /\ (exists stem, name = stem +:+ ".glb")
    /\ host_log (fst (execute s))
       = host_log s ++ export_events (export_dir +:+ "/" +:+ name)
    /\ posixpath.basename (export_dir +:+ "/" +:+ name) = name.
Proof.
  intros H. exists (name_no_ext (data_filepath s) +:+ ".glb").
  assert (plain_component (name_no_ext (data_filepath s) +:+ ".glb")) as Hp
    by apply glb_plain, stem_sep_free.
  split; [done|]. split; [by eexists|]. split.
  - rewrite execute_saved_log by done. by rewrite export_path_eq.
  - rewrite str_app_cons, str_app_nil_l. apply basename_dir. apply Hp.
Qed.

Lemma export_lands_in_export_dir_witness :
  data_filepath (host_with_file "/work/../../etc/passwd") <> ""
  /\ exists name,
       plain_component name
       /\ (exists stem, name = stem +:+ ".glb")
       /\ host_log (fst (execute (host_with_file "/work/../../etc/passwd")))
          = host_log (host_with_file "/work/../../etc/passwd")
            ++ export_events (export_dir +:+ "/" +:+ name)
       /\ posixpath.basename (export_dir +:+ "/" +:+ name) = name.
Proof.
  split; [discriminate|].
  apply (export_lands_in_export_dir (host_with_file "/work/../../etc/passwd")).
  discriminate.
Defined.


(** X3: [execute] keeps nothing from one run to the next.  Run again
    on the state it has left, whatever the exporter answered the first
    time, it makes the same export call once more (none, where the
    file is unsaved), and what it returns is decided by the file path
    and by the exporter's answer to this second call alone. *)
Theorem execute_twice exporter1 exporter2 s :
  export_calls (host_log (fst (execute_with exporter1 s)))
  = export_calls (host_log s)
    ++ (if decide (data_filepath s = "") then []
        else [gltf_call (export_path (data_filepath s))])
  /\ export_calls
       (host_log (fst (execute_with exporter2 (fst (execute_with exporter1 s)))))
     = (export_calls (host_log s)
        ++ (if decide (data_filepath s = "") then []
            else [gltf_call (export_path (data_filepath s))]))
       ++ (if decide (data_filepath s = "") then []
           else [gltf_call (export_path (data_filepath s))])
  /\ snd (execute_with exporter2 (fst (execute_with exporter1 s)))
     = (if decide (data_filepath s = "") then inr [CANCELLED]
        else match exporter2 (gltf_call (export_path (data_filepath s)))
                     (fst (execute_with exporter1 s)) with
             | inr _ => inr [FINISHED]
             | inl e => inl e
             end)
  /\ snd (execute (fst (execute s))) = snd (execute s).
Proof.
  pose proof (execute_with_filepath exporter1 s) as Hfp.
  destruct (decide (data_filepath s = "")) as [E|E].
  - assert (data_filepath (fst (execute_with exporter1 s)) = "") as E1
      by congruence.
    rewrite (execute_with_unsaved exporter2 _ E1).
    rewrite (execute_with_unsaved exporter1 s E). cbn [fst snd host_log with_host_log].
    rewrite !export_calls_app. simpl. rewrite !app_nil_r.
    split; [done|]. split; [done|]. split; [done|].
    rewrite (execute_unsaved s E). cbn [fst snd].
    by rewrite execute_unsaved.
  - assert (data_filepath (fst (execute_with exporter1 s)) <> "") as E1
      by congruence.
    split; [by apply export_call_made|].
    split; [rewrite (export_call_made exporter2 _ E1), Hfp;
            by rewrite (export_call_made exporter1 s E)|].
    split.
    + rewrite (execute_with_saved exporter2 _ E1), Hfp.
      by destruct (exporter2 _ _).
    + rewrite (execute_saved s E). cbn [fst snd].
      by rewrite execute_saved.
Qed.

(** X4: [execute] reads [bpy.data.filepath] and nothing else of the
    host.  On two hosts with the same file path it makes the same
    export calls, whatever their registries, their logs and their
    exporters; and where the exporters give the same answer to that
    call, it returns the same and appends the same events. *)
Theorem execute_reads_only_filepath exporter1 exporter2 s1 s2 :
  data_filepath s1 = data_filepath s2 ->
  (exists calls,
     export_calls (host_log (fst (execute_with exporter1 s1)))
     = export_calls (host_log s1) ++ calls
     /\ export_calls (host_log (fst (execute_with exporter2 s2)))
        = export_calls (host_log s2) ++ calls)
  /\ (exporter1 (gltf_call (export_path (data_filepath s1))) s1
      = exporter2 (gltf_call (export_path (data_filepath s2))) s2 ->
      snd (execute_with exporter1 s1) = snd (execute_with exporter2 s2)
      /\ exists evs,
           host_log (fst (execute_with exporter1 s1)) = host_log s1 ++ evs
           /\ host_log (fst (execute_with exporter2 s2)) = host_log s2 ++ evs).
Proof.
  intros E. destruct (decide (data_filepath s1 = "")) as [E1|E1].
  - rewrite (execute_with_unsaved exporter1 s1),
      (execute_with_unsaved exporter2 s2) by congruence.
    cbn [fst snd host_log with_host_log]. split.
    + exists []. rewrite !export_calls_app. simpl. by rewrite !app_nil_r.
    + intros _. split; [done|]. by eexists.
  - split.
    + eexists. rewrite (export_call_made exporter1 s1) by done.
      rewrite (export_call_made exporter2 s2) by congruence.
      by rewrite E.
    + intros Hans.
      rewrite (execute_with_saved exporter1 s1) by done.
      rewrite (execute_with_saved exporter2 s2) by congruence.
      rewrite <- Hans. rewrite <- E.
      destruct (exporter1 _ s1); cbn [fst snd host_log with_host_log].
      * split; [done|]. by eexists.
      * split; [done|]. eexists. split; symmetry; apply List.app_assoc.
Qed.

Lemma execute_reads_only_filepath_witness :
  data_filepath (host_with_file "/art/castle.blend")
  = data_filepath (fst (register (host_with_file "/art/castle.blend")))
  /\ (exists calls,
        export_calls
          (host_log (fst (execute_with exporter_raises
                            (host_with_file "/art/castle.blend"))))
        = export_calls (host_log (host_with_file "/art/castle.blend")) ++ calls
        /\ export_calls
             (host_log (fst (execute_with exporter_returns
                               (fst (register (host_with_file "/art/castle.blend"))))))
           = export_calls
               (host_log (fst (register (host_with_file "/art/castle.blend"))))
             ++ calls).
Proof.
  split; [reflexivity|].
  apply (execute_reads_only_filepath exporter_raises exporter_returns
           (host_with_file "/art/castle.blend")
           (fst (register (host_with_file "/art/castle.blend")))).
  reflexivity.
Defined.

(** X5: a source path that ends in a separator has an empty file
    name; [execute] does not refuse it and exports to the file
    [.glb] of the export directory. *)
Theorem empty_file_name_exports_to_dot_glb s d :
  data_filepath s = d +:+ "/" ->
  host_log (fst (execute s))
  = host_log s ++ export_events "/home/casey/dream/static/.glb".
Proof.
  intros E.
  assert (data_filepath s <> "") as H.
  { rewrite E. intros E'. apply (f_equal String.length) in E'.
    rewrite str_length_app in E'. simpl in E'. lia. }
  rewrite execute_saved_log by done. f_equal. f_equal.
  rewrite export_path_eq, E.
  change (d +:+ "/") with (d +:+ String sep "").
  rewrite basename_dir by done. reflexivity.
Qed.

Lemma empty_file_name_exports_to_dot_glb_witness :
  data_filepath (host_with_file "/work/models/") = "/work/models" +:+ "/"
  /\ host_log (fst (execute (host_with_file "/work/models/")))
     = host_log (host_with_file "/work/models/")
       ++ export_events "/home/casey/dream/static/.glb".
Proof.
  split; [reflexivity|].
  apply (empty_file_name_exports_to_dot_glb
           (host_with_file "/work/models/") "/work/models").
  reflexivity.
Defined.

End ExecuteFurther.

(** * Further properties of [register] and [unregister] *)

Section RegistryFurther.

Implicit Types (s : Host) (l : list FuncRef) (x : FuncRef).



(** X6: [register] is all or nothing, and a second call of it in a
    row is always refused: it raises [ValueError] and leaves the host
    as the first call left it.  Executing the file again as
    [__main__] is not refused: the class it defines is new to the
    host and takes the place of the registered one, and the callback
    is appended once more, so that the panel lists one more. *)
Theorem register_twice s :
  register (fst (register s)) = (fst (register s), inl ValueError)
  /\ (snd (register s) = inl ValueError -> fst (register s) = s)
  /\ snd (run_file "__main__" (fst (register s))) = inr tt
  /\ (QuickExportGLTFOperator
      ∈ classes (fst (run_file "__main__" (fst (register s)))))
  /\ SCENE_PT_scene_draw_funcs (fst (run_file "__main__" (fst (register s))))
     = SCENE_PT_scene_draw_funcs (fst (register s)) ++ [draw_export_button_ref]
  /\ button_count (fst (run_file "__main__" (fst (register s))))
     = S (button_count (fst (register s))).
Proof.
  split; [|split].
  - destruct (decide (QuickExportGLTFOperator ∈ classes s)) as [Hc|Hc].
    + rewrite (register_again s) by done. cbn [fst snd].
      by apply register_again.
    + rewrite (register_fresh s) by done. cbn [fst snd].
      apply register_again. simpl.
      apply elem_of_union; right. by apply elem_of_singleton.
  - destruct (decide (QuickExportGLTFOperator ∈ classes s)) as [Hc|Hc].
    + by rewrite (register_again s) by done.
    + rewrite (register_fresh s) by done. discriminate.
  - rewrite run_file_main. cbn [fst snd].
    split; [done|]. split; [|split].
    + simpl. apply elem_of_union; right. by apply elem_of_singleton.
    + reflexivity.
    + unfold button_count. simpl.
      rewrite filter_app, length_app. rewrite filter_cons_True by done.
      simpl. lia.
Qed.



(** X8: on a host that started without the add-on, after any
    sequence of [register], [unregister] and [execute] calls, of
    executions of the file and of host activity that leaves the
    add-on's class and callback alone, the operator class is never
    registered without its button in the panel: the class is
    registered last by nothing and unregistered first by nothing. *)
Theorem operator_never_registered_without_button s :
  reachable s ->
  QuickExportGLTFOperator ∈ classes s ->
  draw_export_button_ref ∈ SCENE_PT_scene_draw_funcs s.
Proof.
  intros H.
  induction H as [s Hc Hf|s _ IH|s _ IH|exporter s _ IH|name s _ IH
                 |s s' _ IH [Hcls Hcount]].
  - done.
  - destruct (decide (QuickExportGLTFOperator ∈ classes s)) as [Hc|Hc].
    + rewrite register_again by done. exact IH.
    + rewrite register_fresh by done. simpl. intros _.
      apply elem_of_app; right. apply list_elem_of_here.
  - destruct (decide (QuickExportGLTFOperator ∈ classes s)) as [Hc|Hc].
    + rewrite unregister_loaded by done. simpl.
      intros [_ Hn]%elem_of_difference.
      exfalso. apply Hn. by apply elem_of_singleton.
    + rewrite unregister_not_loaded by done. simpl. done.
  - destruct (execute_with_registry exporter s) as [-> ->]. exact IH.
  - destruct (decide (name = "__main__")) as [->|Hn].
    + rewrite run_file_main. simpl. intros _.
      apply elem_of_app; right. apply list_elem_of_here.
    + rewrite run_file_imported by done. exact IH.
  - intros Hc. apply button_listed. rewrite Hcount.
    apply button_listed, IH, Hcls, Hc.
Qed.

Lemma operator_never_registered_without_button_witness :
  reachable
    (fst (run_file "__main__"
            (fst (unregister (fst (register (host_with_file "/art/castle.blend")))))))
  /\ (QuickExportGLTFOperator
      ∈ classes
          (fst (run_file "__main__"
                  (fst (unregister (fst (register (host_with_file "/art/castle.blend"))))))))
  /\ (draw_export_button_ref
      ∈ SCENE_PT_scene_draw_funcs
          (fst (run_file "__main__"
                  (fst (unregister (fst (register (host_with_file "/art/castle.blend")))))))).
Proof.
  assert (reachable
            (fst (run_file "__main__"
                    (fst (unregister
                            (fst (register (host_with_file "/art/castle.blend")))))))) as H.
  { apply reachable_run_file, reachable_unregister, reachable_register.
    apply reachable_start; [apply not_elem_of_empty | apply not_elem_of_nil]. }
  assert (QuickExportGLTFOperator
          ∈ classes
              (fst (run_file "__main__"
                      (fst (unregister
                              (fst (register (host_with_file "/art/castle.blend")))))))) as Hc.
  { vm_compute. reflexivity. }
  split; [exact H|]. split; [exact Hc|].
  exact (operator_never_registered_without_button _ H Hc).
Defined.



End RegistryFurther.

(** * The panel and the order of calls *)

Section PanelFurther.

Implicit Types (s : Host) (l : list FuncRef) (layout : UILayout).

Variable others : FuncRef -> UILayout -> UILayout.
Variable items : FuncRef -> list UIItem.

(** The other callbacks only add items of their own to the layout,
    none of them the add-on's button. *)
Hypothesis others_append :
  forall f layout, f <> draw_export_button_ref ->
                   others f layout = layout ++ items f.
Hypothesis others_no_export_button :
  forall f, f <> draw_export_button_ref -> export_button ∉ items f.

Lemma shown_export_buttons_app layout1 layout2 :
  shown_export_buttons (layout1 ++ layout2)
  = (shown_export_buttons layout1 + shown_export_buttons layout2)%nat.
Proof. unfold shown_export_buttons. by rewrite filter_app, length_app. Qed.

Lemma shown_export_buttons_absent layout :
  export_button ∉ layout -> shown_export_buttons layout = 0%nat.
Proof.
  unfold shown_export_buttons.
  induction layout as [|item layout IH]; [done|].
  intros [Hi Hl]%not_elem_of_cons.
  rewrite filter_cons_False by (intros ->; done). by apply IH.
Qed.

(** Drawing the callbacks of [l] onto a layout adds one export button
    for each occurrence of the add-on's callback in [l]. *)
Lemma shown_export_buttons_drawn l layout :
  shown_export_buttons
    (fold_left (fun layout f => call_draw others f layout) l layout)
  = (shown_export_buttons layout
     + length (filter (fun f => f = draw_export_button_ref) l))%nat.
Proof.
  revert layout. induction l as [|f l IH]; intros layout; simpl; [lia|].
  rewrite IH. unfold call_draw.
  destruct (decide (f = draw_export_button_ref)) as [->|Hf].
  - rewrite filter_cons_True by done. unfold draw_export_button.
    rewrite shown_export_buttons_app. simpl. change (OperatorButton _ _) with export_button.
    unfold shown_export_buttons at 2. rewrite filter_cons_True by done.
    simpl. lia.
  - rewrite filter_cons_False by done.
    rewrite others_append, shown_export_buttons_app by done.
    rewrite (shown_export_buttons_absent (items f))
      by (by apply others_no_export_button).
    lia.
Qed.

(** X10: when the other draw callbacks only append items of their
    own, the drawn panel shows the export button once for each time
    the add-on's callback is listed: once more after a [register]
    that returns, and once more after each execution of the file as
    [__main__]. *)
Theorem panel_shows_one_button_per_listing s :
  shown_export_buttons (panel_layout others s) = button_count s
  /\ (snd (register s) = inr tt ->
      shown_export_buttons (panel_layout others (fst (register s)))
      = S (shown_export_buttons (panel_layout others s)))
  /\ shown_export_buttons
       (panel_layout others (fst (run_file "__main__" s)))
     = S (shown_export_buttons (panel_layout others s)).
Proof.
  assert (forall s', shown_export_buttons (panel_layout others s')
                     = button_count s') as E.
  { intros s'. unfold panel_layout. by rewrite shown_export_buttons_drawn. }
  split; [apply E|]. rewrite !E. split.
  - intros Hr. apply register_returns in Hr.
    rewrite register_fresh by done. unfold button_count. simpl.
    rewrite filter_app, length_app. rewrite filter_cons_True by done.
    simpl. lia.
  - rewrite run_file_main. unfold button_count. simpl.
    rewrite filter_app, length_app. rewrite filter_cons_True by done.
    simpl. lia.
Qed.

End PanelFurther.

Lemma panel_shows_one_button_per_listing_witness :
  shown_export_buttons
    (panel_layout (fun _ layout => layout) (fst (run_file "__main__" host_with_addon)))
  = 2%nat
  /\ button_count (fst (run_file "__main__" host_with_addon)) = 2%nat.
Proof.
  destruct (panel_shows_one_button_per_listing
              (fun _ layout => layout) (fun _ => [])
              (fun f layout _ => eq_sym (app_nil_r layout))
              (fun f _ => not_elem_of_nil export_button)
              (fst (run_file "__main__" host_with_addon))) as [E _].
  split; [rewrite E|]; vm_compute; reflexivity.
Defined.

Section OrderOfCalls.

Implicit Types (s : Host).


End OrderOfCalls.
